(** * PowerBiMLaaS: the AI analytics client, verified against its specification

    The development embeds the TypeScript components of
    [frontend/prostgles/client/src/pages/AIAnalytics]:

    - [PromptToDAX]        the prompt box and its submit handler,
    - [DashboardBuilder]   schema fetch, the generation call and the render guard,
    - [PowerBIExport]      the three downloads,

    together with the JavaScript notions they rest on (UTF-16 strings,
    [String.prototype.trim], truthiness, property reads, [JSON.stringify]).
    React state is passed explicitly; every handler returns the new state
    and the trace of effects it performed. *)

From Stdlib Require Import List NArith ZArith Bool Lia Ascii String.
From Stdlib Require Import Sorting.Sorted Sorting.Permutation.
From Stdlib Require Import Numbers.DecimalString.
Import ListNotations.

Set Warnings "-register-all".  (* json is nested through list and prod *)

(* ===================================================================== *)
(** * JavaScript values *)
(* ===================================================================== *)

Module JS.
Local Open Scope N_scope.

(** A JavaScript string is a sequence of UTF-16 code units. *)
Definition jsstring := list N.

(** Source literals are ASCII; [u] reads one as code units. *)
Definition u (s : string) : jsstring := map N_of_ascii (list_ascii_of_string s).
Arguments u s%_string.

Fixpoint str_eqb (a b : jsstring) : bool :=
  match a, b with
  | [], [] => true
  | x :: a', y :: b' => N.eqb x y && str_eqb a' b'
  | _, _ => false
  end.

(** ECMAScript WhiteSpace and LineTerminator code points, the set that
    [String.prototype.trim] strips: TAB, LF, VT, FF, CR, SP, NBSP, the
    Unicode space separators, LS, PS and the byte order mark. *)
Definition is_ws (c : N) : bool :=
  (N.leb 9 c && N.leb c 13)
  || N.eqb c 32 || N.eqb c 160 || N.eqb c 5760
  || (N.leb 8192 c && N.leb c 8202)
  || N.eqb c 8232 || N.eqb c 8233 || N.eqb c 8239 || N.eqb c 8287
  || N.eqb c 12288 || N.eqb c 65279.

Fixpoint trimStart (s : jsstring) : jsstring :=
  match s with
  | [] => []
  | c :: r => if is_ws c then trimStart r else s
  end.

Definition trimEnd (s : jsstring) : jsstring := rev (trimStart (rev s)).

(** [s.trim()] *)
Definition trim (s : jsstring) : jsstring := trimEnd (trimStart s).

Definition whitespace (c : N) : Prop := is_ws c = true.

(** A string is trimmed when neither end is white space. *)
Definition trimmed (s : jsstring) : Prop :=
  (forall c, hd_error s = Some c -> is_ws c = false) /\
  (forall c, hd_error (rev s) = Some c -> is_ws c = false).

(** Values that [JSON.parse] can produce.  Objects keep their own
    properties in insertion order; a key occurs once.  Numbers are kept as
    integers: the components only ever test them for truthiness. *)
Inductive json : Type :=
| JNull
| JBool (b : bool)
| JNum (n : Z)
| JStr (s : jsstring)
| JArr (items : list json)
| JObj (fields : list (jsstring * json)).

(** The result of reading a property: the value, or [undefined]. *)
Inductive jsval : Type :=
| JUndefined
| JVal (j : json).

(** An expression either completes normally or throws. *)
Inductive completion (A : Type) : Type :=
| Normal (a : A)
| Throw.
Arguments Normal {A} a.
Arguments Throw {A}.

Fixpoint lookup (k : jsstring) (fields : list (jsstring * json)) : jsval :=
  match fields with
  | [] => JUndefined
  | (k', v) :: rest => if str_eqb k k' then JVal v else lookup k rest
  end.

(** [data.k] for a parsed JSON value [data] and a key [k] that is not an
    index and not on a prototype: reading from [null] throws a TypeError,
    an object yields its own property, every other value yields
    [undefined]. *)
Definition get (data : json) (k : jsstring) : completion jsval :=
  match data with
  | JNull => Throw
  | JObj fields => Normal (lookup k fields)
  | _ => Normal JUndefined
  end.

(** [Object.keys] of a parsed value, for objects. *)
Definition object_keys (j : json) : list jsstring :=
  match j with
  | JObj fields => map fst fields
  | _ => []
  end.

(** ToBoolean *)
Definition truthy_json (j : json) : bool :=
  match j with
  | JNull => false
  | JBool b => b
  | JNum n => negb (Z.eqb n 0)
  | JStr s => match s with [] => false | _ => true end
  | JArr _ => true
  | JObj _ => true
  end.

Definition truthy (v : jsval) : bool :=
  match v with
  | JUndefined => false
  | JVal j => truthy_json j
  end.

(** [v || d] where [d] is a JSON value. *)
Definition or_else (v : jsval) (d : json) : json :=
  match v with
  | JVal j => if truthy_json j then j else d
  | JUndefined => d
  end.

End JS.
Import JS.

(* ===================================================================== *)
(** * JSON.stringify *)
(* ===================================================================== *)

Module JSON.
Local Open Scope N_scope.

Definition hex_digit (d : N) : N :=
  if N.ltb d 10 then 48 + d else 87 + d.

(** UnicodeEscape: a backslash, [u] and four lowercase hex digits. *)
Definition unicode_escape (c : N) : jsstring :=
  [92; 117; hex_digit (N.div c 4096 mod 16); hex_digit (N.div c 256 mod 16);
   hex_digit (N.div c 16 mod 16); hex_digit (c mod 16)]%N.

Definition is_high_surrogate (c : N) : bool := N.leb 55296 c && N.leb c 56319.
Definition is_low_surrogate (c : N) : bool := N.leb 56320 c && N.leb c 57343.

(** One code point that is not the first half of a surrogate pair. *)
Definition quote_unit (c : N) : jsstring :=
  if N.eqb c 8 then [92; 98]
  else if N.eqb c 9 then [92; 116]
  else if N.eqb c 10 then [92; 110]
  else if N.eqb c 12 then [92; 102]
  else if N.eqb c 13 then [92; 114]
  else if N.eqb c 34 then [92; 34]
  else if N.eqb c 92 then [92; 92]
  else if N.ltb c 32 || is_high_surrogate c || is_low_surrogate c
       then unicode_escape c
  else [c].

Fixpoint quote_units (s : jsstring) : jsstring :=
  match s with
  | [] => []
  | c :: r =>
      match r with
      | d :: r' =>
          if is_high_surrogate c && is_low_surrogate d
          then c :: d :: quote_units r'
          else quote_unit c ++ quote_units r
      | [] => quote_unit c
      end
  end.

(** QuoteJSONString *)
Definition quote (s : jsstring) : jsstring := [34%N] ++ quote_units s ++ [34%N].

Fixpoint join (sep : jsstring) (parts : list jsstring) : jsstring :=
  match parts with
  | [] => []
  | [p] => p
  | p :: rest => p ++ sep ++ join sep rest
  end.

(** The common tail of SerializeJSONObject and SerializeJSONArray:
    [stepback] is the indentation before the call, [gap] the unit of
    indentation. *)
Definition wrap (open close : N) (gap stepback : jsstring)
    (partial : list jsstring) : jsstring :=
  match partial with
  | [] => [open; close]
  | _ =>
      match gap with
      | [] => [open] ++ join [44%N] partial ++ [close]
      | _ =>
          let indent := stepback ++ gap in
          [open] ++ [10%N] ++ indent
            ++ join ([44%N; 10%N] ++ indent) partial
            ++ [10%N] ++ stepback ++ [close]
      end
  end.

Definition number_to_string (n : Z) : jsstring :=
  u (NilZero.string_of_int (Z.to_int n)).

(** SerializeJSONProperty *)
Fixpoint serialize (gap stepback : jsstring) (v : json) {struct v} : jsstring :=
  match v with
  | JNull => u "null"
  | JBool true => u "true"
  | JBool false => u "false"
  | JNum n => number_to_string n
  | JStr s => quote s
  | JArr items =>
      wrap 91 93 gap stepback (map (serialize gap (stepback ++ gap)) items)
  | JObj fields =>
      wrap 123 125 gap stepback
        (map (fun kv : jsstring * json =>
                let (k, x) := kv in
                quote k ++ [58%N]
                  ++ match gap with [] => [] | _ => [32%N] end
                  ++ serialize gap (stepback ++ gap) x)
             fields)
  end.

(** [JSON.stringify(v)] *)
Definition stringify (v : json) : jsstring := serialize [] [] v.

(** [JSON.stringify(v, null, 2)] *)
Definition stringify_2 (v : json) : jsstring := serialize [32%N; 32%N] [] v.

End JSON.


(* ===================================================================== *)
(** * The relational store: information_schema.columns *)
(* ===================================================================== *)

(** A row object of the array the schema query resolves to. *)
Module Row.
Record t := {
  column_name : jsstring;
  data_type : jsstring;
  is_nullable : jsstring
}.
End Row.

Module Db.

(** A row of the catalog view [information_schema.columns], with the
    attributes the query mentions and the schema the table lives in. *)
Record column_info := {
  table_schema : jsstring;
  table_name : jsstring;
  column_name : jsstring;
  ordinal_position : Z;
  data_type : jsstring;
  is_nullable : jsstring
}.

(** The database as the client sees it: reachable or not, and the
    catalog view. *)
Record Db := {
  reachable : bool;
  information_schema_columns : list column_info
}.

(** [WHERE table_name = $1] *)
Definition where_table_name (param1 : jsstring) (rows : list column_info)
  : list column_info :=
  filter (fun r => str_eqb (table_name r) param1) rows.

Fixpoint insert_by_ordinal (r : column_info) (sorted : list column_info)
  : list column_info :=
  match sorted with
  | [] => [r]
  | x :: rest =>
      if Z.leb (ordinal_position r) (ordinal_position x)
      then r :: sorted
      else x :: insert_by_ordinal r rest
  end.

(** [ORDER BY ordinal_position]: ascending; rows with equal keys keep
    their relative order, one of the orders SQL allows. *)
Definition order_by_ordinal_position (rows : list column_info)
  : list column_info :=
  fold_right insert_by_ordinal [] rows.

Definition ordinal_le (a b : column_info) : Prop :=
  (ordinal_position a <= ordinal_position b)%Z.

(** [SELECT column_name, data_type, is_nullable] *)
Definition select_triple (r : column_info) : Row.t :=
  {| Row.column_name := column_name r;
     Row.data_type := data_type r;
     Row.is_nullable := is_nullable r |}.

(** The statement of [fetchTableSchema], run with parameters [[table]]:
<<
  SELECT column_name, data_type, is_nullable
  FROM information_schema.columns
  WHERE table_name = $1
  ORDER BY ordinal_position
>> *)
Definition schema_query (catalog : list column_info) (table : jsstring)
  : list Row.t :=
  map select_triple
      (order_by_ordinal_position (where_table_name table catalog)).

(** The statements the client sends through [dbs.raw]. *)
Inductive statement : Type :=
| SelectColumnsOfTable.

(** [dbs.raw(statement, [table])]: rejects when the store cannot be
    reached.  A SELECT leaves the store as it is, so no new store is
    returned. *)
Definition raw (db : Db) (q : statement) (params : list jsstring)
  : completion (list Row.t) :=
  if reachable db then
    match q, params with
    | SelectColumnsOfTable, [table] =>
        Normal (schema_query (information_schema_columns db) table)
    | SelectColumnsOfTable, _ => Throw
    end
  else Throw.

End Db.

(* ===================================================================== *)
(** * Effects *)
(* ===================================================================== *)

(** The build-time environment read by [getApiBaseUrl]; [None] stands for
    a variable (or the object holding it) that is undefined. *)
Record Env := {
  VITE_AI_API_URL : option jsstring;
  REACT_APP_AI_API_URL : option jsstring
}.

Record Request := {
  url : jsstring;
  method : jsstring;
  headers : list (jsstring * jsstring);
  body : jsstring
}.

(** [new Blob(parts, {type})] *)
Record Blob := {
  parts : list json;
  type : jsstring
}.

(** What a handler does to the world, in program order.  An object URL is
    identified with the blob it was created for. *)
Inductive effect : Type :=
| ConsoleError (label : jsstring)
| DbRaw (q : Db.statement) (params : list jsstring)
| Fetch (req : Request)
| CreateObjectURL (b : Blob)
| AnchorClick (href : Blob) (download : jsstring)
| RevokeObjectURL (b : Blob).

(** How the awaited [fetch] and [response.json()] turn out. *)
Inductive fetch_outcome : Type :=
| FetchRejects
| FetchResponse (ok : bool) (json_body : completion json).

(** The call did not bring a response to read: [fetch] rejected or the
    response is not [ok]. *)
Definition call_failed (outcome : fetch_outcome) : bool :=
  match outcome with
  | FetchRejects => true
  | FetchResponse ok _ => negb ok
  end.

Definition nonempty (s : jsstring) : bool :=
  match s with [] => false | _ => true end.

(** An environment variable that is defined and truthy. *)
Definition truthy_var (v : option jsstring) : option jsstring :=
  match v with
  | Some s => if nonempty s then Some s else None
  | None => None
  end.

(** [getApiBaseUrl], the same in both components. *)
Definition getApiBaseUrl (env : Env) : jsstring :=
  match truthy_var (VITE_AI_API_URL env) with
  | Some v => v
  | None =>
      match truthy_var (REACT_APP_AI_API_URL env) with
      | Some r => r
      | None => u "http://localhost:8000"
      end
  end.

(* ===================================================================== *)
(** * PromptToDAX *)
(* ===================================================================== *)

Module PromptToDAX.

Record State := {
  prompt : jsstring;
  showExamples : bool
}.

Definition initial : State := {| prompt := []; showExamples := false |}.

Definition examplePrompts : list jsstring :=
  [ u "Show me total fraud by month";
    u "Create a chart showing fraud amount trends over time";
    u "Display fraud percentage by category";
    u "Show top 10 fraudulent transactions";
    u "Create a dashboard with fraud detection metrics";
    u "Show fraud patterns by location";
    u "Display fraud vs legitimate transaction ratios";
    u "Create a time series of fraud incidents" ].

Definition setPrompt (p : jsstring) (st : State) : State :=
  {| prompt := p; showExamples := showExamples st |}.

Definition setShowExamples (b : bool) (st : State) : State :=
  {| prompt := prompt st; showExamples := b |}.

(** [handleSubmit]: the argument [onGenerate] is called with, if it is
    called at all. *)
Definition handleSubmit (loading : bool) (st : State) : option jsstring :=
  if nonempty (trim (prompt st)) && negb loading
  then Some (trim (prompt st))
  else None.

Definition useExamplePrompt (example : jsstring) (st : State) : State :=
  setShowExamples false (setPrompt example st).

(** The [disabled] attribute of the submit button. *)
Definition submit_disabled (loading : bool) (st : State) : bool :=
  negb (nonempty (trim (prompt st))) || loading.

End PromptToDAX.

(* ===================================================================== *)
(** * PowerBIExport *)
(* ===================================================================== *)

Module PowerBIExport.

(** The props are typed [string] by the interface; at run time they hold
    whatever the builder's state holds, a JSON value. *)
Record Props := {
  table : jsstring;
  daxCode : json;
  sqlCode : json;
  columns : list Row.t
}.

Definition pbidsContent (env : Env) (p : Props) : json :=
  JObj [ (u "version", JStr (u "1.0"));
         (u "connections",
          JArr [ JObj [ (u "filePath",
                         JStr (getApiBaseUrl env ++ u "/api/dashboard/"
                                 ++ table p ++ u "/data"));
                        (u "name", JStr (table p)) ] ]) ].

(** The tail shared by the three handlers: make an object URL for the
    blob, click an anchor that downloads it under [name], revoke the URL. *)
Definition download (b : Blob) (name : jsstring) : list effect :=
  [CreateObjectURL b; AnchorClick b name; RevokeObjectURL b].

Definition generatePBIDS (env : Env) (p : Props) : list effect :=
  let blob := {| parts := [JStr (JSON.stringify_2 (pbidsContent env p))];
                 type := u "application/json" |} in
  download blob (table p ++ u "_dashboard.pbids").

Definition downloadDAX (p : Props) : list effect :=
  let blob := {| parts := [daxCode p]; type := u "text/plain" |} in
  download blob (table p ++ u "_dashboard.dax").

Definition downloadSQL (p : Props) : list effect :=
  let blob := {| parts := [sqlCode p]; type := u "text/plain" |} in
  download blob (table p ++ u "_query.sql").

End PowerBIExport.

(* ===================================================================== *)
(** * DashboardBuilder *)
(* ===================================================================== *)

Module DashboardBuilder.

Record State := {
  columns : list Row.t;
  loading : bool;
  generatedDAX : json;
  generatedSQL : json;
  error : option jsstring
}.

Definition initial : State :=
  {| columns := []; loading := false;
     generatedDAX := JStr []; generatedSQL := JStr []; error := None |}.

Definition setColumns (c : list Row.t) (st : State) : State :=
  {| columns := c; loading := loading st; generatedDAX := generatedDAX st;
     generatedSQL := generatedSQL st; error := error st |}.

Definition setLoading (b : bool) (st : State) : State :=
  {| columns := columns st; loading := b; generatedDAX := generatedDAX st;
     generatedSQL := generatedSQL st; error := error st |}.

Definition setGeneratedDAX (v : json) (st : State) : State :=
  {| columns := columns st; loading := loading st; generatedDAX := v;
     generatedSQL := generatedSQL st; error := error st |}.

Definition setGeneratedSQL (v : json) (st : State) : State :=
  {| columns := columns st; loading := loading st;
     generatedDAX := generatedDAX st; generatedSQL := v; error := error st |}.

Definition setError (e : option jsstring) (st : State) : State :=
  {| columns := columns st; loading := loading st;
     generatedDAX := generatedDAX st; generatedSQL := generatedSQL st;
     error := e |}.

(** [fetchTableSchema], run by the effect hook whenever [table] changes. *)
Definition fetchTableSchema (table : jsstring) (db : Db.Db) (st : State)
  : State * list effect :=
  let st := setError None (setLoading true st) in
  let call := DbRaw Db.SelectColumnsOfTable [table] in
  match Db.raw db Db.SelectColumnsOfTable [table] with
  | Normal result =>
      (setLoading false (setColumns result st), [call])
  | Throw =>
      (setLoading false (setError (Some (u "Failed to fetch table schema")) st),
       [call; ConsoleError (u "Error fetching table schema:")])
  end.

(** The object handed to [JSON.stringify] as the request body. *)
Definition request_body (table prompt : jsstring) (cols : list Row.t) : json :=
  JObj [ (u "table", JStr table);
         (u "prompt", JStr prompt);
         (u "columns",
          JArr (map (fun col =>
                       JObj [ (u "name", JStr (Row.column_name col));
                              (u "type", JStr (Row.data_type col)) ])
                    cols)) ].

Definition generate_request (env : Env) (table prompt : jsstring)
    (cols : list Row.t) : Request :=
  {| url := getApiBaseUrl env ++ u "/api/generate-dashboard";
     method := u "POST";
     headers := [(u "Content-Type", u "application/json")];
     body := JSON.stringify (request_body table prompt cols) |}.

Definition failure_message : jsstring :=
  u "Failed to generate dashboard. Please try again.".

(** The [try] block of [handleGenerateDashboard] once the call has been
    issued: the state it leaves and whether it threw. *)
Definition generate_try (outcome : fetch_outcome) (st : State) : State * bool :=
  match outcome with
  | FetchRejects => (st, true)
  | FetchResponse false _ => (st, true)
  | FetchResponse true Throw => (st, true)
  | FetchResponse true (Normal data) =>
      match get data (u "dax") with
      | Throw => (st, true)
      | Normal dax =>
          let st := setGeneratedDAX (or_else dax (JStr [])) st in
          match get data (u "sql") with
          | Throw => (st, true)
          | Normal sql => (setGeneratedSQL (or_else sql (JStr [])) st, false)
          end
      end
  end.

(** [handleGenerateDashboard(prompt)], with the outcome of its one
    awaited call given. *)
Definition handleGenerateDashboard (env : Env) (table : jsstring)
    (prompt : jsstring) (outcome : fetch_outcome) (st : State)
  : State * list effect :=
  let call := Fetch (generate_request env table prompt (columns st)) in
  let st := setError None (setLoading true st) in
  let (st, threw) := generate_try outcome st in
  if threw
  then (setLoading false
          (setError (Some failure_message) st),
        [call; ConsoleError (u "Error generating dashboard:")])
  else (setLoading false st, [call]).

(** Two runs for the same prompt, the second on the state the first one
    left: the state after each run and the whole trace. *)
Definition generate_twice (env : Env) (table prompt : jsstring)
    (first second : fetch_outcome) (st : State)
  : State * State * list effect :=
  let (st1, t1) := handleGenerateDashboard env table prompt first st in
  let (st2, t2) := handleGenerateDashboard env table prompt second st1 in
  (st1, st2, t1 ++ t2).

(** The render guard [{generatedDAX && (<PowerBIExport ... />)}]: the
    props of the export panel when it is rendered. *)
Definition export_panel (table : jsstring) (st : State)
  : option PowerBIExport.Props :=
  if truthy_json (generatedDAX st)
  then Some {| PowerBIExport.table := table;
               PowerBIExport.daxCode := generatedDAX st;
               PowerBIExport.sqlCode := generatedSQL st;
               PowerBIExport.columns := columns st |}
  else None.

End DashboardBuilder.

(* ===================================================================== *)
(** * The dialog as a state machine *)
(* ===================================================================== *)

Module Dialog.

(** The builder with the prompt box mounted inside it. *)
Record UI := {
  builder : DashboardBuilder.State;
  promptBox : PromptToDAX.State
}.

Definition initial : UI :=
  {| builder := DashboardBuilder.initial; promptBox := PromptToDAX.initial |}.

(** What can happen to the dialog.  An event that awaits a collaborator
    carries what the collaborator answers. *)
Inductive event : Type :=
| TableChanged (db : Db.Db)
| ChangePrompt (text : jsstring)
| ToggleExamples
| PickExample (example : jsstring)
| Submit (outcome : fetch_outcome)
| ClickDownloadPBIDS
| ClickDownloadDAX
| ClickDownloadSQL.

Definition with_builder (ui : UI) (r : DashboardBuilder.State * list effect)
  : UI * list effect :=
  ({| builder := fst r; promptBox := promptBox ui |}, snd r).

Definition with_promptBox (ui : UI) (p : PromptToDAX.State) : UI * list effect :=
  ({| builder := builder ui; promptBox := p |}, []).

(** A click on one of the export buttons: they exist only inside the
    rendered [PowerBIExport]. *)
Definition export_click (table : jsstring) (ui : UI)
    (handler : PowerBIExport.Props -> list effect) : UI * list effect :=
  match DashboardBuilder.export_panel table (builder ui) with
  | Some props => (ui, handler props)
  | None => (ui, [])
  end.

Definition step (env : Env) (table : jsstring) (ui : UI) (ev : event)
  : UI * list effect :=
  let loading := DashboardBuilder.loading (builder ui) in
  match ev with
  | TableChanged db =>
      with_builder ui (DashboardBuilder.fetchTableSchema table db (builder ui))
  | ChangePrompt text =>
      (* the textarea is disabled while loading *)
      if loading then (ui, [])
      else with_promptBox ui (PromptToDAX.setPrompt text (promptBox ui))
  | ToggleExamples =>
      if loading then (ui, [])
      else with_promptBox ui
             (PromptToDAX.setShowExamples
                (negb (PromptToDAX.showExamples (promptBox ui))) (promptBox ui))
  | PickExample example =>
      (* the example buttons exist only while the list is shown *)
      if PromptToDAX.showExamples (promptBox ui)
      then with_promptBox ui (PromptToDAX.useExamplePrompt example (promptBox ui))
      else (ui, [])
  | Submit outcome =>
      match PromptToDAX.handleSubmit loading (promptBox ui) with
      | Some prompt =>
          with_builder ui
            (DashboardBuilder.handleGenerateDashboard env table prompt outcome
               (builder ui))
      | None => (ui, [])
      end
  | ClickDownloadPBIDS => export_click table ui (PowerBIExport.generatePBIDS env)
  | ClickDownloadDAX => export_click table ui PowerBIExport.downloadDAX
  | ClickDownloadSQL => export_click table ui PowerBIExport.downloadSQL
  end.

Fixpoint run (env : Env) (table : jsstring) (ui : UI) (evs : list event)
  : UI * list effect :=
  match evs with
  | [] => (ui, [])
  | ev :: rest =>
      let (ui1, t1) := step env table ui ev in
      let (ui2, t2) := run env table ui1 rest in
      (ui2, t1 ++ t2)
  end.

End Dialog.

(** Observations on a trace. *)
Definition is_fetch (e : effect) : bool :=
  match e with Fetch _ => true | _ => false end.

Definition is_db_call (e : effect) : bool :=
  match e with DbRaw _ _ => true | _ => false end.

Definition is_download (e : effect) : bool :=
  match e with AnchorClick _ _ => true | _ => false end.

(** The requests sent to the generation endpoint. *)
Definition generation_calls (t : list effect) : list effect := filter is_fetch t.

(** The files a trace hands to the browser: name and blob. *)
Fixpoint downloads (t : list effect) : list (jsstring * Blob) :=
  match t with
  | [] => []
  | AnchorClick b name :: rest => (name, b) :: downloads rest
  | _ :: rest => downloads rest
  end.

(* ===================================================================== *)
(** * The consistency validator of the translation service *)
(* ===================================================================== *)

(** The service behind [/api/generate-dashboard] is not part of the client
    sources; its validator is written down here from the specification. *)
Module Validator.

Record ColumnMeta := {
  name : string;
  data_type : string;
  nullable : bool
}.

Definition SchemaSnapshot := list ColumnMeta.

Record TranslationRequest := {
  table : string;
  schema : SchemaSnapshot;
  prompt : string
}.

Record RawGenerationOutput := {
  sql_text : string;
  dax_text : string
}.

Inductive Status : Type := Accepted | Rejected.

Record TranslationResult := {
  sql : string;
  dax : string;
  status : Status;
  rejection_reason : option string
}.

(** An extracted reference: [table[column]] carries a qualifier, a bare
    or bracketed reference does not. *)
Record Identifier := {
  qualifier : option string;
  column : string
}.

Definition column_names (s : SchemaSnapshot) : list string := map name s.

Definition known (s : SchemaSnapshot) (i : Identifier) : bool :=
  existsb (String.eqb (column i)) (column_names s).

Definition is_empty (s : string) : bool :=
  match s with EmptyString => true | String _ _ => false end.

Section Tokenizers.

(** The specification describes the two extractors only in outline, so
    they are parameters: each returns the identifiers of a text, or
    nothing when the text cannot be tokenized. *)
Variable extract_sql : string -> option (list Identifier).
Variable extract_dax : string -> option (list Identifier).

Definition extracted (o : option (list Identifier)) : list Identifier :=
  match o with Some ids => ids | None => [] end.

(** Step 1: the identifiers extracted from the two texts, SQL first. *)
Definition identifiers (raw : RawGenerationOutput) : list Identifier :=
  extracted (extract_sql (sql_text raw)) ++ extracted (extract_dax (dax_text raw)).

Definition tokenizes (raw : RawGenerationOutput) : bool :=
  match extract_sql (sql_text raw), extract_dax (dax_text raw) with
  | Some _, Some _ => true
  | _, _ => false
  end.

Definition reject (raw : RawGenerationOutput) (reason : string)
  : TranslationResult :=
  {| sql := sql_text raw; dax := dax_text raw;
     status := Rejected; rejection_reason := Some reason |}.

Definition accept (raw : RawGenerationOutput) : TranslationResult :=
  {| sql := sql_text raw; dax := dax_text raw;
     status := Accepted; rejection_reason := None |}.

(** Modelled from the spec: [validate] of section 4.4, which belongs to
    the translation service and is absent from the client sources.  The
    numbered steps are taken in their order: an extracted identifier whose
    column is not in the schema rejects with [UnknownColumn: <name>]
    (step 2), two empty texts reject with [EmptyGeneration] (step 3),
    anything else is accepted (step 4).  The edge policy [Unparseable],
    which the specification does not rank, is applied once the extracted
    identifiers have been checked. *)
Definition validate (raw : RawGenerationOutput) (s : SchemaSnapshot)
  : TranslationResult :=
  match find (fun i => negb (known s i)) (identifiers raw) with
  | Some i => reject raw (String.append "UnknownColumn: " (column i))
  | None =>
      if negb (tokenizes raw) then reject raw "Unparseable"
      else if is_empty (sql_text raw) && is_empty (dax_text raw)
           then reject raw "EmptyGeneration"
      else accept raw
  end.

(** The validator as the pipeline calls it, on the schema of the request
    that owns the result. *)
Definition validate_for (req : TranslationRequest) (raw : RawGenerationOutput)
  : TranslationResult :=
  validate raw (schema req).

(** An identifier appears in a text when the text's extractor yields it. *)
Definition appears_in_sql (i : Identifier) (text : string) : Prop :=
  exists ids, extract_sql text = Some ids /\ In i ids.

Definition appears_in_dax (i : Identifier) (text : string) : Prop :=
  exists ids, extract_dax text = Some ids /\ In i ids.

(** An identifier appears in a generation output when it appears in one
    of its two texts. *)
Definition appears (i : Identifier) (raw : RawGenerationOutput) : Prop :=
  appears_in_sql i (sql_text raw) \/ appears_in_dax i (dax_text raw).

End Tokenizers.

(** A sample extractor: the bracketed references of a text, [[column]].
    A bracket that is never closed, or closed without being opened, makes
    the text unparseable. *)
Fixpoint bracket_refs_from (inside : option string) (text : string)
  : option (list Identifier) :=
  match text with
  | EmptyString =>
      match inside with None => Some [] | Some _ => None end
  | String c rest =>
      match inside with
      | None =>
          if Ascii.eqb c "["%char then bracket_refs_from (Some EmptyString) rest
          else if Ascii.eqb c "]"%char then None
          else bracket_refs_from None rest
      | Some acc =>
          if Ascii.eqb c "]"%char
          then option_map (cons {| qualifier := None; column := acc |})
                          (bracket_refs_from None rest)
          else if Ascii.eqb c "["%char then None
          else bracket_refs_from
                 (Some (String.append acc (String c EmptyString))) rest
      end
  end.

Definition bracket_refs (text : string) : option (list Identifier) :=
  bracket_refs_from None text.

End Validator.

(* ===================================================================== *)
(** * The interface of the translation service, as specified *)
(* ===================================================================== *)

(** The specified request, [{table, prompt}]: the object sent as the
    request body has the fields [table] and [prompt] and nothing else. *)
Definition only_table_and_prompt (body : json) : Prop :=
  forall k, In k (object_keys body) <-> In k [u "table"; u "prompt"].

(** The specified response carries a [status]; the result is accepted
    when that field is the string [accepted]. *)
Definition declares_accepted (data : json) : bool :=
  match get data (u "status") with
  | Normal (JVal (JStr s)) => str_eqb s (u "accepted")
  | _ => false
  end.

(* ===================================================================== *)
(** * Sample inputs *)
(* ===================================================================== *)

Module Sample.

Definition env_default : Env :=
  {| VITE_AI_API_URL := None; REACT_APP_AI_API_URL := None |}.

Definition transactions : jsstring := u "transactions".

Definition fraud_by_month : jsstring := u "Show me total fraud by month".

(** Two spaces, a tab, a line feed and a no-break space in the prompt box. *)
Definition ui_blank_prompt : Dialog.UI :=
  {| Dialog.builder := DashboardBuilder.initial;
     Dialog.promptBox :=
       {| PromptToDAX.prompt := [32; 32; 9; 10; 160]%N;
          PromptToDAX.showExamples := false |} |}.

(** The user typed the first example with blanks around it. *)
Definition ui_padded_prompt : Dialog.UI :=
  {| Dialog.builder := DashboardBuilder.initial;
     Dialog.promptBox :=
       {| PromptToDAX.prompt := u "  Show me total fraud by month " ++ [10%N];
          PromptToDAX.showExamples := false |} |}.

Definition fraud_flag_column : Row.t :=
  {| Row.column_name := u "fraud_flag";
     Row.data_type := u "boolean";
     Row.is_nullable := u "YES" |}.

(** The builder once the schema of a one-column table has arrived. *)
Definition builder_with_schema : DashboardBuilder.State :=
  DashboardBuilder.setColumns [fraud_flag_column] DashboardBuilder.initial.

Definition dax_fraud : jsstring :=
  u "FraudByMonth = CALCULATE(COUNT(transactions[fraud_flag]), transactions[fraud_flag] = 1)".

Definition dax_other : jsstring :=
  u "Fraud = COUNTROWS(FILTER(transactions, transactions[fraud_flag] = 1))".

Definition sql_fraud : jsstring :=
  u "SELECT COUNT(id) AS fraud_count FROM transactions WHERE fraud_flag = 1".

(** Response bodies of the generation endpoint. *)
Definition both_fields : json :=
  JObj [(u "dax", JStr dax_fraud); (u "sql", JStr sql_fraud)].

Definition other_answer : json :=
  JObj [(u "dax", JStr dax_other); (u "sql", JStr sql_fraud)].

Definition sql_only : json := JObj [(u "sql", JStr sql_fraud)].

(** The builder showing the code of an earlier successful run. *)
Definition builder_with_code : DashboardBuilder.State :=
  DashboardBuilder.setGeneratedSQL (JStr sql_fraud)
    (DashboardBuilder.setGeneratedDAX (JStr dax_fraud) builder_with_schema).

Definition dax_unknown_column : jsstring :=
  u "Fraud = COUNT(transactions[nonexistent_col])".

(** A response that reports its result as rejected and still carries the
    rejected DAX text. *)
Definition rejected_answer : json :=
  JObj [(u "sql", JStr []);
        (u "dax", JStr dax_unknown_column);
        (u "status", JStr (u "rejected"));
        (u "reason", JStr (u "UnknownColumn: nonexistent_col"))].

Definition catalog_row (tbl col : jsstring) (pos : Z) (ty nullable : jsstring)
  : Db.column_info :=
  {| Db.table_schema := u "public"; Db.table_name := tbl;
     Db.column_name := col; Db.ordinal_position := pos;
     Db.data_type := ty; Db.is_nullable := nullable |}.

(** Some rows of the catalog for the two tables of [init.sql], in no
    particular order. *)
Definition store : Db.Db :=
  {| Db.reachable := true;
     Db.information_schema_columns :=
       [ catalog_row (u "transactions") (u "label") 31 (u "integer") (u "YES");
         catalog_row (u "fraud_scores") (u "id") 1 (u "integer") (u "NO");
         catalog_row (u "transactions") (u "id") 1 (u "integer") (u "NO");
         catalog_row (u "fraud_scores") (u "fraud_prob") 3
                     (u "double precision") (u "YES");
         catalog_row (u "transactions") (u "amount") 30
                     (u "double precision") (u "YES") ] |}.

(** The scenario of the specification: table [transactions] with the
    columns [date], [fraud_flag] and [amount]. *)
Definition scenario_request : Validator.TranslationRequest :=
  {| Validator.table := "transactions";
     Validator.schema :=
       [ {| Validator.name := "date"; Validator.data_type := "date";
            Validator.nullable := true |};
         {| Validator.name := "fraud_flag"; Validator.data_type := "integer";
            Validator.nullable := true |};
         {| Validator.name := "amount"; Validator.data_type := "double precision";
            Validator.nullable := true |} ];
     Validator.prompt := "Show me total fraud by month" |}.

Definition grounded_output : Validator.RawGenerationOutput :=
  {| Validator.sql_text :=
       "SELECT COUNT([amount]) FROM transactions WHERE [fraud_flag] = 1";
     Validator.dax_text :=
       "Fraud = CALCULATE(COUNT(transactions[fraud_flag]), transactions[fraud_flag] = 1)" |}.

Definition ungrounded_output : Validator.RawGenerationOutput :=
  {| Validator.sql_text :=
       "SELECT COUNT([amount]) FROM transactions WHERE [fraud_flag] = 1";
     Validator.dax_text := "Fraud = COUNT(transactions[nonexistent_col])" |}.

Definition nonexistent_col : Validator.Identifier :=
  {| Validator.qualifier := None; Validator.column := "nonexistent_col" |}.

End Sample.

(* ===================================================================== *)
(** * AIAnalyticsDashboard *)
(* ===================================================================== *)

Module AIAnalyticsDashboard.

(** A row of the catalog view [information_schema.tables]. *)
Record table_info := {
  table_schema : jsstring;
  table_name : jsstring;
  table_type : jsstring
}.

(** The store seen from this page: reachable or not, and the view. *)
Record Store := {
  reachable : bool;
  information_schema_tables : list table_info
}.

(** A row object of the array the query resolves to. *)
Record NameRow := { row_table_name : jsstring }.

Section Collation.

(** [ORDER BY table_name] compares text by the collation of the database,
    which the page does not fix: [name_leb] is that order. *)
Variable name_leb : jsstring -> jsstring -> bool.

(** [WHERE table_schema = 'public' AND table_type = 'BASE TABLE'] *)
Definition where_public_base_table (rows : list table_info) : list table_info :=
  filter (fun r => str_eqb (table_schema r) (u "public")
                   && str_eqb (table_type r) (u "BASE TABLE"))
         rows.

Fixpoint insert_by_name (r : table_info) (sorted : list table_info)
  : list table_info :=
  match sorted with
  | [] => [r]
  | x :: rest =>
      if name_leb (table_name r) (table_name x)
      then r :: sorted
      else x :: insert_by_name r rest
  end.

(** [ORDER BY table_name] *)
Definition order_by_table_name (rows : list table_info) : list table_info :=
  fold_right insert_by_name [] rows.

(** [SELECT table_name] *)
Definition select_name (r : table_info) : NameRow :=
  {| row_table_name := table_name r |}.

(** The statement of [fetchTables]. *)
Definition tables_query (view : list table_info) : list NameRow :=
  map select_name (order_by_table_name (where_public_base_table view)).

(** [dbs.raw(statement)] for that statement. *)
Definition raw (db : Store) : completion (list NameRow) :=
  if reachable db then Normal (tables_query (information_schema_tables db))
  else Throw.

Record State := {
  tables : list jsstring;
  selectedTable : jsstring;
  showBuilder : bool;
  loading : bool;
  error : option jsstring
}.

Definition initial : State :=
  {| tables := []; selectedTable := []; showBuilder := false;
     loading := false; error := None |}.

Definition setTables (t : list jsstring) (st : State) : State :=
  {| tables := t; selectedTable := selectedTable st;
     showBuilder := showBuilder st; loading := loading st; error := error st |}.

Definition setSelectedTable (t : jsstring) (st : State) : State :=
  {| tables := tables st; selectedTable := t;
     showBuilder := showBuilder st; loading := loading st; error := error st |}.

Definition setShowBuilder (b : bool) (st : State) : State :=
  {| tables := tables st; selectedTable := selectedTable st;
     showBuilder := b; loading := loading st; error := error st |}.

Definition setLoading (b : bool) (st : State) : State :=
  {| tables := tables st; selectedTable := selectedTable st;
     showBuilder := showBuilder st; loading := b; error := error st |}.

Definition setError (e : option jsstring) (st : State) : State :=
  {| tables := tables st; selectedTable := selectedTable st;
     showBuilder := showBuilder st; loading := loading st; error := e |}.

(** What [fetchTables] does besides setting state. *)
Inductive call : Type :=
| RawSelectTables
| LogError (label : jsstring).

(** [fetchTables], run once by the effect hook after mounting. *)
Definition fetchTables (db : Store) (st : State) : State * list call :=
  let st := setError None (setLoading true st) in
  match raw db with
  | Normal result =>
      let tableList := map row_table_name result in
      (setLoading false (setTables tableList st), [RawSelectTables])
  | Throw =>
      (setLoading false
         (setError (Some (u "Failed to fetch tables from database")) st),
       [RawSelectTables; LogError (u "Error fetching tables:")])
  end.

(** The values of the options of the select: the placeholder's empty
    value and the listed tables. *)
Definition is_option (value : jsstring) (st : State) : bool :=
  negb (nonempty value) || existsb (str_eqb value) (tables st).

(** The [disabled] attribute of the Create Dashboard button. *)
Definition create_disabled (st : State) : bool :=
  negb (nonempty (selectedTable st)) || loading st.

(** [{showBuilder && selectedTable && (<DashboardBuilder table=... />)}]:
    the table the builder is mounted for, when it is rendered. *)
Definition builder_table (st : State) : option jsstring :=
  if showBuilder st && nonempty (selectedTable st)
  then Some (selectedTable st)
  else None.

Inductive event : Type :=
| SelectTable (value : jsstring)
| ClickCreate
| CloseBuilder.

Definition step (st : State) (ev : event) : State :=
  match ev with
  | SelectTable value =>
      (* the select is disabled while loading and offers its options only *)
      if negb (loading st) && is_option value st
      then setSelectedTable value st
      else st
  | ClickCreate =>
      if create_disabled st then st else setShowBuilder true st
  | CloseBuilder =>
      (* [onClose] belongs to the rendered builder *)
      match builder_table st with
      | Some _ => setShowBuilder false st
      | None => st
      end
  end.

(** The page from mounting on: the effect hook fetches the tables, then
    the user acts. *)
Definition session (db : Store) (evs : list event) : State :=
  fold_left step evs (fst (fetchTables db initial)).

End Collation.

(** A row the statement of [fetchTables] keeps. *)
Definition public_base_table (r : table_info) : Prop :=
  table_schema r = u "public" /\ table_type r = u "BASE TABLE".

(** The list of tables is the one fetched and the selection is the
    placeholder or a listed table. *)
Definition page_invariant (listed : list jsstring) (st : State) : Prop :=
  tables st = listed /\
  (selectedTable st = [] \/ In (selectedTable st) listed).

End AIAnalyticsDashboard.

(* ===================================================================== *)
(** * More observations and sample inputs *)
(* ===================================================================== *)

Fixpoint created_urls (t : list effect) : list Blob :=
  match t with
  | [] => []
  | CreateObjectURL b :: rest => b :: created_urls rest
  | _ :: rest => created_urls rest
  end.

Fixpoint revoked_urls (t : list effect) : list Blob :=
  match t with
  | [] => []
  | RevokeObjectURL b :: rest => b :: revoked_urls rest
  | _ :: rest => revoked_urls rest
  end.

Definition db_calls (t : list effect) : list effect := filter is_db_call t.

(** A string has something to send when one of its code units is not
    white space. *)
Definition has_text (s : jsstring) : Prop := exists c, In c s /\ is_ws c = false.

(** The stored code is the empty string or a truthy value. *)
Definition empty_or_truthy (v : json) : Prop :=
  v = JStr [] \/ truthy_json v = true.

(** The response can be used: it is [ok] and its body parses to a value
    other than [null]. *)
Definition usable (outcome : fetch_outcome) : Prop :=
  exists data, outcome = FetchResponse true (Normal data) /\ data <> JNull.

(** The two code values are the empty string or truthy. *)
Definition code_invariant (st : DashboardBuilder.State) : Prop :=
  empty_or_truthy (DashboardBuilder.generatedDAX st) /\
  empty_or_truthy (DashboardBuilder.generatedSQL st).

(** Not a control character: the code unit is U+0020 or above. *)
Definition printable (c : N) : Prop := (32 <= c)%N.

Definition is_submit (ev : Dialog.event) : bool :=
  match ev with Dialog.Submit _ => true | _ => false end.

Definition is_table_change (ev : Dialog.event) : bool :=
  match ev with Dialog.TableChanged _ => true | _ => false end.

Definition is_export_click (ev : Dialog.event) : bool :=
  match ev with
  | Dialog.ClickDownloadPBIDS | Dialog.ClickDownloadDAX
  | Dialog.ClickDownloadSQL => true
  | _ => false
  end.

Module SampleMore.

(** A catalog in which the schemas [public] and [audit] each hold a table
    [transactions] with a column [id]. *)
Definition audit_id : Db.column_info :=
  {| Db.table_schema := u "audit"; Db.table_name := u "transactions";
     Db.column_name := u "id"; Db.ordinal_position := 1%Z;
     Db.data_type := u "bigint"; Db.is_nullable := u "NO" |}.

Definition store_two_schemas : Db.Db :=
  {| Db.reachable := true;
     Db.information_schema_columns :=
       [ Sample.catalog_row (u "transactions") (u "id") 1
                            (u "integer") (u "NO");
         audit_id ] |}.

(** The dialog while a generation call is in flight. *)
Definition ui_loading : Dialog.UI :=
  {| Dialog.builder :=
       DashboardBuilder.setLoading true Sample.builder_with_schema;
     Dialog.promptBox :=
       {| PromptToDAX.prompt := Sample.fraud_by_month;
          PromptToDAX.showExamples := false |} |}.

(** The dialog with a prompt typed and the example list open. *)
Definition ui_ready : Dialog.UI :=
  {| Dialog.builder := Sample.builder_with_schema;
     Dialog.promptBox :=
       {| PromptToDAX.prompt := Sample.fraud_by_month;
          PromptToDAX.showExamples := true |} |}.

Definition dax_only : json := JObj [(u "dax", JStr Sample.dax_fraud)].

(** The same rows as [Sample.store], stored in another order. *)
Definition store_shuffled : Db.Db :=
  {| Db.reachable := true;
     Db.information_schema_columns :=
       rev (Db.information_schema_columns Sample.store) |}.

Definition unreachable_store : Db.Db :=
  {| Db.reachable := false; Db.information_schema_columns := [] |}.

(** Code units compared one by one: the order of the C collation. *)
Fixpoint code_unit_leb (a b : jsstring) : bool :=
  match a, b with
  | [], _ => true
  | _ :: _, [] => false
  | x :: a', y :: b' =>
      if N.ltb x y then true
      else if N.ltb y x then false
      else code_unit_leb a' b'
  end.

Definition table_row (sch name ty : jsstring)
  : AIAnalyticsDashboard.table_info :=
  {| AIAnalyticsDashboard.table_schema := sch;
     AIAnalyticsDashboard.table_name := name;
     AIAnalyticsDashboard.table_type := ty |}.

Definition tables_store : AIAnalyticsDashboard.Store :=
  {| AIAnalyticsDashboard.reachable := true;
     AIAnalyticsDashboard.information_schema_tables :=
       [ table_row (u "public") (u "transactions") (u "BASE TABLE");
         table_row (u "information_schema") (u "columns") (u "VIEW");
         table_row (u "public") (u "fraud_scores") (u "BASE TABLE");
         table_row (u "public") (u "recent_fraud") (u "VIEW");
         table_row (u "audit") (u "transactions_log") (u "BASE TABLE") ] |}.

Definition tables_store_down : AIAnalyticsDashboard.Store :=
  {| AIAnalyticsDashboard.reachable := false;
     AIAnalyticsDashboard.information_schema_tables := [] |}.

End SampleMore.

(* ===================================================================== *)
(** * Rendering the stored code, and the schema of a listed table *)
(* ===================================================================== *)

(** A value React can render as a child of [<pre>]: strings and numbers
    are shown, booleans and [null] show nothing, an array is rendered
    child by child, and an object makes the render throw. *)
Fixpoint react_child (v : json) : bool :=
  match v with
  | JObj _ => false
  | JArr items => forallb react_child items
  | _ => true
  end.

(** The builder renders: neither [<pre>{generatedDAX}</pre>] nor
    [<pre>{generatedSQL}</pre>] throws.  Falsy values are not rendered at
    all, and neither is an object. *)
Definition builder_renders (st : DashboardBuilder.State) : bool :=
  react_child (DashboardBuilder.generatedDAX st)
  && react_child (DashboardBuilder.generatedSQL st).

(** The export panel as it is on screen: the render guard of the builder
    is reached only when the builder renders. *)
Definition panel_on_screen (table : jsstring) (st : DashboardBuilder.State)
  : option PowerBIExport.Props :=
  if builder_renders st then DashboardBuilder.export_panel table st else None.

(** The dialog is on screen whenever one of the events reaches it: the
    builder renders in the state each event meets (a builder whose render
    throws is unmounted, and nothing more can happen to it). *)
Fixpoint on_screen_throughout (env : Env) (table : jsstring) (ui : Dialog.UI)
    (evs : list Dialog.event) : bool :=
  match evs with
  | [] => true
  | ev :: rest =>
      builder_renders (Dialog.builder ui)
      && on_screen_throughout env table
           (fst (Dialog.step env table ui ev)) rest
  end.

(** The table the page lists under a name is the one in the schema
    [public]; its schema is the triples of its own catalog rows, by
    ordinal position. *)
Definition public_table_schema (catalog : list Db.column_info)
    (table : jsstring) : list Row.t :=
  map Db.select_triple
      (Db.order_by_ordinal_position
         (filter (fun r => str_eqb (Db.table_schema r) (u "public")
                           && str_eqb (Db.table_name r) table)
                 catalog)).

Module SampleSchemas.

(** The table view that goes with [SampleMore.store_two_schemas]: a base
    table [transactions] in [public] and another one in [audit]. *)
Definition page_store : AIAnalyticsDashboard.Store :=
  {| AIAnalyticsDashboard.reachable := true;
     AIAnalyticsDashboard.information_schema_tables :=
       [ SampleMore.table_row (u "public") (u "transactions") (u "BASE TABLE");
         SampleMore.table_row (u "audit") (u "transactions") (u "BASE TABLE") ] |}.

Definition public_id : Row.t :=
  {| Row.column_name := u "id"; Row.data_type := u "integer";
     Row.is_nullable := u "NO" |}.

Definition audit_id : Row.t :=
  {| Row.column_name := u "id"; Row.data_type := u "bigint";
     Row.is_nullable := u "NO" |}.

(** An answer whose [dax] field is an object. *)
Definition object_dax : json :=
  JObj [(u "dax", JObj [(u "measure", JStr Sample.dax_fraud)]);
        (u "sql", JStr Sample.sql_fraud)].

End SampleSchemas.

(* ===================================================================== *)
(** * Properties of [trim] *)
(* ===================================================================== *)

Section Trim.

Lemma trimStart_split (s : jsstring) :
  exists l, s = l ++ trimStart s /\ Forall whitespace l.
Proof.
  induction s as [|c s IH]; simpl.
  - exists []. split; [reflexivity | constructor].
  - destruct (is_ws c) eqn:Hc.
    + destruct IH as [l [Heq Hl]].
      exists (c :: l). split.
      * simpl. f_equal. exact Heq.
      * constructor; assumption.
    + exists []. split; [reflexivity | constructor].
Qed.

Lemma trimStart_head (s : jsstring) (c : N) :
  hd_error (trimStart s) = Some c -> is_ws c = false.
Proof.
  induction s as [|x s IH]; simpl; [discriminate|].
  destruct (is_ws x) eqn:Hx; [exact IH|].
  simpl. intros H; injection H as <-. exact Hx.
Qed.

Lemma trimStart_fixed (s : jsstring) :
  (forall c, hd_error s = Some c -> is_ws c = false) -> trimStart s = s.
Proof.
  destruct s as [|x s]; simpl; [reflexivity|].
  intros H. rewrite (H x eq_refl). reflexivity.
Qed.

Lemma trimStart_blank (s : jsstring) :
  Forall whitespace s -> trimStart s = [].
Proof.
  induction 1 as [|c s Hc _ IH]; simpl; [reflexivity|].
  unfold whitespace in Hc. rewrite Hc. exact IH.
Qed.

Lemma trimEnd_split (s : jsstring) :
  exists r, s = trimEnd s ++ r /\ Forall whitespace r.
Proof.
  destruct (trimStart_split (rev s)) as [l [Heq Hl]].
  exists (rev l). split.
  - unfold trimEnd. rewrite <- rev_app_distr, <- Heq.
    symmetry. apply rev_involutive.
  - apply Forall_rev. exact Hl.
Qed.

Lemma trimEnd_last (s : jsstring) (c : N) :
  hd_error (rev (trimEnd s)) = Some c -> is_ws c = false.
Proof.
  unfold trimEnd. rewrite rev_involutive. apply trimStart_head.
Qed.

Lemma trimEnd_fixed (s : jsstring) :
  (forall c, hd_error (rev s) = Some c -> is_ws c = false) -> trimEnd s = s.
Proof.
  intros H. unfold trimEnd. rewrite (trimStart_fixed _ H).
  apply rev_involutive.
Qed.

Lemma trimEnd_blank (s : jsstring) :
  Forall whitespace s -> trimEnd s = [].
Proof.
  intros H. unfold trimEnd.
  rewrite (trimStart_blank _ (Forall_rev H)). reflexivity.
Qed.

Lemma trim_split (s : jsstring) :
  exists l r, s = l ++ trim s ++ r /\ Forall whitespace l /\ Forall whitespace r.
Proof.
  destruct (trimStart_split s) as [l [Hl Wl]].
  destruct (trimEnd_split (trimStart s)) as [r [Hr Wr]].
  exists l, r. unfold trim. rewrite <- Hr. auto.
Qed.

Lemma trim_trimmed (s : jsstring) : trimmed (trim s).
Proof.
  split; intros c Hc.
  - destruct (trimEnd_split (trimStart s)) as [r [Hr _]].
    apply (trimStart_head s). rewrite Hr. fold (trim s).
    destruct (trim s); [discriminate | exact Hc].
  - exact (trimEnd_last _ _ Hc).
Qed.

Lemma trimmed_fixed (s : jsstring) : trimmed s -> trim s = s.
Proof.
  intros [Hh Hl]. unfold trim.
  rewrite (trimStart_fixed _ Hh). apply trimEnd_fixed. exact Hl.
Qed.

Lemma trim_blank (s : jsstring) : Forall whitespace s -> trim s = [].
Proof.
  intros H. unfold trim. rewrite (trimStart_blank _ H). reflexivity.
Qed.

Lemma trim_empty_blank (s : jsstring) : trim s = [] -> Forall whitespace s.
Proof.
  intros H. destruct (trim_split s) as [l [r [Heq [Wl Wr]]]].
  rewrite H in Heq. rewrite Heq. apply Forall_app. auto.
Qed.

End Trim.

(* ===================================================================== *)
(** * The prompt box *)
(* ===================================================================== *)

Section PromptBox.

Import PromptToDAX.

Lemma nonempty_false (s : jsstring) : nonempty s = false -> s = [].
Proof. destruct s; [reflexivity | discriminate]. Qed.

Lemma nonempty_true (s : jsstring) : nonempty s = true -> s <> [].
Proof. destruct s; [discriminate | intros _ H; discriminate H]. Qed.

Lemma handleSubmit_blank (loading : bool) (st : State) :
  Forall whitespace (prompt st) -> handleSubmit loading st = None.
Proof.
  intros H. unfold handleSubmit. rewrite (trim_blank _ H). reflexivity.
Qed.

Lemma handleSubmit_calls (loading : bool) (st : State) (p : jsstring) :
  handleSubmit loading st = Some p ->
  p = trim (prompt st) /\ p <> [] /\ loading = false.
Proof.
  unfold handleSubmit.
  destruct (nonempty (trim (prompt st))) eqn:Hn; simpl; [|discriminate].
  destruct loading; simpl; [discriminate|].
  intros H; injection H as <-.
  split; [reflexivity|]. split; [apply nonempty_true; exact Hn | reflexivity].
Qed.

End PromptBox.

(* ===================================================================== *)
(** * The generation call *)
(* ===================================================================== *)

Section Generation.

Import DashboardBuilder.

Lemma generate_try_threw (outcome : fetch_outcome) (st : State) :
  snd (generate_try outcome st) = true -> fst (generate_try outcome st) = st.
Proof.
  destruct outcome as [|[|] [data|]]; simpl; try reflexivity.
  destruct data; simpl; try discriminate. reflexivity.
Qed.

Lemma generate_try_done (outcome : fetch_outcome) (st : State) :
  snd (generate_try outcome st) = false ->
  exists data dax sql,
    outcome = FetchResponse true (Normal data) /\ data <> JNull /\
    get data (u "dax") = Normal dax /\ get data (u "sql") = Normal sql /\
    fst (generate_try outcome st)
    = setGeneratedSQL (or_else sql (JStr []))
        (setGeneratedDAX (or_else dax (JStr [])) st).
Proof.
  destruct outcome as [|[|] [data|]]; simpl; try discriminate.
  destruct (get data (u "dax")) as [dax|] eqn:Hd; simpl; [|discriminate].
  destruct (get data (u "sql")) as [sql|] eqn:Hs; simpl; [|discriminate].
  intros _. exists data, dax, sql.
  repeat split; try assumption.
  intros ->. discriminate Hd.
Qed.

Lemma handleGenerateDashboard_calls (env : Env) (table prompt : jsstring)
    (outcome : fetch_outcome) (st : State) :
  generation_calls (snd (handleGenerateDashboard env table prompt outcome st))
  = [Fetch (generate_request env table prompt (columns st))].
Proof.
  unfold handleGenerateDashboard.
  destruct (generate_try outcome _) as [st1 [|]]; reflexivity.
Qed.

Lemma handleGenerateDashboard_state (env : Env) (table prompt : jsstring)
    (outcome : fetch_outcome) (st : State) :
  let st0 := setError None (setLoading true st) in
  fst (handleGenerateDashboard env table prompt outcome st)
  = if snd (generate_try outcome st0)
    then setLoading false (setError (Some failure_message) st)
    else setLoading false (fst (generate_try outcome st0)).
Proof.
  intros st0. unfold handleGenerateDashboard. fold st0.
  destruct (generate_try outcome st0) as [st1 threw] eqn:Ht.
  destruct threw; simpl; [|reflexivity].
  pose proof (generate_try_threw outcome st0) as H.
  rewrite Ht in H. simpl in H. rewrite (H eq_refl). reflexivity.
Qed.

End Generation.

(* ===================================================================== *)
(** * Submitting a prompt *)
(* ===================================================================== *)

(** C3.  A submission whose prompt is empty or consists only of white
    space never reaches the generator: whatever [loading] is,
    [handleSubmit] does not call [onGenerate] and the submit button is
    disabled, and the dialog's submit step performs no effect at all, so no
    generation call is issued, and leaves the state as it was. *)
Theorem blank_prompt_never_generates
    (env : Env) (table : jsstring) (ui : Dialog.UI) (outcome : fetch_outcome) :
  Forall whitespace (PromptToDAX.prompt (Dialog.promptBox ui)) ->
  (forall loading,
      PromptToDAX.handleSubmit loading (Dialog.promptBox ui) = None /\
      PromptToDAX.submit_disabled loading (Dialog.promptBox ui) = true) /\
  Dialog.step env table ui (Dialog.Submit outcome) = (ui, []) /\
  generation_calls (snd (Dialog.step env table ui (Dialog.Submit outcome))) = [].
Proof.
  intros Hblank.
  assert (Hs : forall loading,
             PromptToDAX.handleSubmit loading (Dialog.promptBox ui) = None)
    by (intros loading; apply handleSubmit_blank; exact Hblank).
  split; [|split].
  - intros loading. split; [apply Hs|].
    unfold PromptToDAX.submit_disabled.
    rewrite (trim_blank _ Hblank). reflexivity.
  - simpl. rewrite Hs. reflexivity.
  - simpl. rewrite Hs. reflexivity.
Qed.

Lemma blank_prompt_never_generates_witness :
  Forall whitespace (PromptToDAX.prompt (Dialog.promptBox Sample.ui_blank_prompt)) /\
  Dialog.step Sample.env_default Sample.transactions Sample.ui_blank_prompt
              (Dialog.Submit FetchRejects) = (Sample.ui_blank_prompt, []).
Proof.
  assert (H : Forall whitespace
                (PromptToDAX.prompt (Dialog.promptBox Sample.ui_blank_prompt)))
    by (repeat constructor).
  split; [exact H|].
  exact (proj1 (proj2 (blank_prompt_never_generates
                         Sample.env_default Sample.transactions Sample.ui_blank_prompt
                         FetchRejects H))).
Defined.

(** C8.  Whenever a submission issues a generation request, the prompt it
    carries is the textarea input with the leading and trailing white
    space removed: the input is [l ++ p ++ r] with [l] and [r] white
    space, and [p], the prompt sent, is trimmed and not empty. *)
Theorem submitted_prompt_is_trimmed
    (env : Env) (table : jsstring) (ui : Dialog.UI) (outcome : fetch_outcome)
    (req : Request) :
  In (Fetch req) (snd (Dialog.step env table ui (Dialog.Submit outcome))) ->
  let typed := PromptToDAX.prompt (Dialog.promptBox ui) in
  let p := trim typed in
  PromptToDAX.handleSubmit (DashboardBuilder.loading (Dialog.builder ui))
                           (Dialog.promptBox ui) = Some p /\
  req = DashboardBuilder.generate_request
          env table p (DashboardBuilder.columns (Dialog.builder ui)) /\
  (exists l r, typed = l ++ p ++ r /\ Forall whitespace l /\ Forall whitespace r) /\
  trimmed p /\ trim p = p /\ p <> [].
Proof.
  simpl.
  destruct (PromptToDAX.handleSubmit _ _) as [p|] eqn:Hs; simpl;
    [|intros []].
  destruct (handleSubmit_calls _ _ _ Hs) as [Hp [Hne _]]. subst p.
  intros Hin.
  assert (Hcall : In (Fetch req)
            (generation_calls
               (snd (DashboardBuilder.handleGenerateDashboard
                       env table (trim (PromptToDAX.prompt (Dialog.promptBox ui)))
                       outcome (Dialog.builder ui)))))
    by (apply filter_In; split; [exact Hin | reflexivity]).
  rewrite handleGenerateDashboard_calls in Hcall.
  destruct Hcall as [Heq|[]]. injection Heq as <-.
  repeat split.
  - apply trim_split.
  - apply trim_trimmed.
  - apply trim_trimmed.
  - apply trimmed_fixed, trim_trimmed.
  - exact Hne.
Qed.

Lemma submitted_prompt_is_trimmed_witness :
  In (Fetch (DashboardBuilder.generate_request
               Sample.env_default Sample.transactions
               Sample.fraud_by_month []))
     (snd (Dialog.step Sample.env_default Sample.transactions Sample.ui_padded_prompt
             (Dialog.Submit FetchRejects))) /\
  trimmed (trim (PromptToDAX.prompt (Dialog.promptBox Sample.ui_padded_prompt))) /\
  trim (PromptToDAX.prompt (Dialog.promptBox Sample.ui_padded_prompt)) <> [].
Proof.
  assert (H : In (Fetch (DashboardBuilder.generate_request
                           Sample.env_default Sample.transactions
                           Sample.fraud_by_month []))
                 (snd (Dialog.step Sample.env_default Sample.transactions
                         Sample.ui_padded_prompt (Dialog.Submit FetchRejects))))
    by (left; reflexivity).
  split; [exact H|].
  destruct (submitted_prompt_is_trimmed _ _ _ _ _ H)
    as [_ [_ [_ [Htrimmed [_ Hne]]]]].
  split; [exact Htrimmed | exact Hne].
Defined.

(* ===================================================================== *)
(** * The request sent to the generation endpoint *)
(* ===================================================================== *)

(** C5, as stated, fails: for the table [transactions] with one fetched
    column, the one generation call of [handleGenerateDashboard] carries a
    body with a third field, [columns], holding the column metadata the
    client fetched. *)
Lemma request_carries_columns :
  let body := DashboardBuilder.request_body
                Sample.transactions Sample.fraud_by_month
                [Sample.fraud_flag_column] in
  generation_calls
    (snd (DashboardBuilder.handleGenerateDashboard
            Sample.env_default Sample.transactions Sample.fraud_by_month
            (FetchResponse true (Normal Sample.both_fields))
            Sample.builder_with_schema))
  = [Fetch {| url := u "http://localhost:8000/api/generate-dashboard";
              method := u "POST";
              headers := [(u "Content-Type", u "application/json")];
              body := JSON.stringify body |}] /\
  get body (u "columns")
  = Normal (JVal (JArr [JObj [(u "name", JStr (u "fraud_flag"));
                              (u "type", JStr (u "boolean"))]])) /\
  ~ only_table_and_prompt body.
Proof.
  split; [reflexivity|]. split; [reflexivity|].
  intros H. destruct (H (u "columns")) as [Hin _].
  assert (Hk : In (u "columns") [u "table"; u "prompt"])
    by (apply Hin; right; right; left; reflexivity).
  destruct Hk as [Hk|[Hk|[]]]; discriminate Hk.
Qed.

(** C5, amended.  Every run of [handleGenerateDashboard] issues one POST
    to [<API base URL>/api/generate-dashboard] whose JSON body has exactly
    the fields [table], [prompt] and [columns], in this order; [columns]
    lists, in schema order, the [name] and [type] of each column the
    client fetched (nullability is not sent). *)
Theorem generation_request_shape
    (env : Env) (table prompt : jsstring) (outcome : fetch_outcome)
    (st : DashboardBuilder.State) :
  let body := DashboardBuilder.request_body
                table prompt (DashboardBuilder.columns st) in
  generation_calls
    (snd (DashboardBuilder.handleGenerateDashboard env table prompt outcome st))
  = [Fetch {| url := getApiBaseUrl env ++ u "/api/generate-dashboard";
              method := u "POST";
              headers := [(u "Content-Type", u "application/json")];
              body := JSON.stringify body |}] /\
  object_keys body = [u "table"; u "prompt"; u "columns"] /\
  get body (u "table") = Normal (JVal (JStr table)) /\
  get body (u "prompt") = Normal (JVal (JStr prompt)) /\
  get body (u "columns")
  = Normal (JVal (JArr (map (fun col =>
                               JObj [(u "name", JStr (Row.column_name col));
                                     (u "type", JStr (Row.data_type col))])
                            (DashboardBuilder.columns st)))).
Proof.
  intros body. split; [apply handleGenerateDashboard_calls|].
  repeat split.
Qed.

(* ===================================================================== *)
(** * Reading the response *)
(* ===================================================================== *)

Section Response.

Import DashboardBuilder.

Variables (env : Env) (table prompt : jsstring).

(** The state after a response that is [ok] and whose body parses to an
    object. *)
Lemma handleGenerateDashboard_object (fields : list (jsstring * json))
    (st : State) :
  fst (handleGenerateDashboard env table prompt
         (FetchResponse true (Normal (JObj fields))) st)
  = {| columns := columns st;
       loading := false;
       generatedDAX := or_else (lookup (u "dax") fields) (JStr []);
       generatedSQL := or_else (lookup (u "sql") fields) (JStr []);
       error := None |}.
Proof. reflexivity. Qed.

(** C6.  When the response is [ok] and its JSON object lacks [dax] or
    [sql], the missing field is stored as the empty string, the field that
    is present is stored as it came, and the call succeeds: no error is
    set, no error is logged, and loading ends. *)
Theorem missing_field_is_empty_string (fields : list (jsstring * json))
    (st : State) :
  let run := handleGenerateDashboard env table prompt
               (FetchResponse true (Normal (JObj fields))) st in
  (lookup (u "dax") fields = JUndefined -> generatedDAX (fst run) = JStr []) /\
  (lookup (u "sql") fields = JUndefined -> generatedSQL (fst run) = JStr []) /\
  (forall v, lookup (u "dax") fields = JVal v -> truthy_json v = true ->
             generatedDAX (fst run) = v) /\
  (forall v, lookup (u "sql") fields = JVal v -> truthy_json v = true ->
             generatedSQL (fst run) = v) /\
  error (fst run) = None /\
  loading (fst run) = false /\
  snd run = [Fetch (generate_request env table prompt (columns st))].
Proof.
  intros run. unfold run. rewrite handleGenerateDashboard_object. simpl.
  repeat split.
  - intros ->. reflexivity.
  - intros ->. reflexivity.
  - intros v -> Hv. simpl. rewrite Hv. reflexivity.
  - intros v -> Hv. simpl. rewrite Hv. reflexivity.
Qed.

(** C9.  When the generation call fails, because [fetch] rejects or the
    response is not [ok], the generated DAX and SQL (and the columns) stay
    as they were and only the error message is set, loading being over;
    and whenever a run changes the generated DAX or SQL, the response was
    [ok], its body parsed to a value other than [null], and no error is
    set. *)
Theorem failed_generation_keeps_code (outcome : fetch_outcome) (st : State) :
  let st' := fst (handleGenerateDashboard env table prompt outcome st) in
  (call_failed outcome = true ->
     st' = setLoading false (setError (Some failure_message) st) /\
     generatedDAX st' = generatedDAX st /\
     generatedSQL st' = generatedSQL st /\
     columns st' = columns st /\
     error st' = Some failure_message) /\
  (generatedDAX st' <> generatedDAX st \/ generatedSQL st' <> generatedSQL st ->
     exists data,
       outcome = FetchResponse true (Normal data) /\ data <> JNull /\
       error st' = None).
Proof.
  intros st'. unfold st'. rewrite handleGenerateDashboard_state.
  split.
  - intros Hfail.
    assert (Hthrew : snd (generate_try outcome (setError None (setLoading true st)))
                     = true).
    { destruct outcome as [|[|] b]; simpl in *;
        [reflexivity | discriminate | reflexivity]. }
    rewrite Hthrew. repeat split.
  - destruct (snd (generate_try outcome (setError None (setLoading true st))))
      eqn:Hthrew.
    + simpl. intros [H|H]; exfalso; apply H; reflexivity.
    + intros _.
      destruct (generate_try_done _ _ Hthrew)
        as [data [dax [sql [Ho [Hnull [_ [_ Hst]]]]]]].
      exists data. rewrite Hst. repeat split; assumption.
Qed.

End Response.

Lemma missing_field_is_empty_string_witness :
  lookup (u "dax") [(u "sql", JStr Sample.sql_fraud)] = JUndefined /\
  DashboardBuilder.generatedDAX
    (fst (DashboardBuilder.handleGenerateDashboard
            Sample.env_default Sample.transactions Sample.fraud_by_month
            (FetchResponse true (Normal Sample.sql_only))
            Sample.builder_with_schema))
  = JStr [].
Proof.
  assert (H : lookup (u "dax") [(u "sql", JStr Sample.sql_fraud)] = JUndefined)
    by reflexivity.
  split; [exact H|].
  exact (proj1 (missing_field_is_empty_string
                  Sample.env_default Sample.transactions Sample.fraud_by_month
                  [(u "sql", JStr Sample.sql_fraud)]
                  Sample.builder_with_schema) H).
Defined.

Lemma failed_generation_keeps_code_witness :
  call_failed (FetchResponse false Throw) = true /\
  DashboardBuilder.generatedDAX
    (fst (DashboardBuilder.handleGenerateDashboard
            Sample.env_default Sample.transactions Sample.fraud_by_month
            (FetchResponse false Throw) Sample.builder_with_code))
  = JStr Sample.dax_fraud.
Proof.
  assert (H : call_failed (FetchResponse false Throw) = true) by reflexivity.
  split; [exact H|].
  exact (proj1 (proj2 (proj1 (failed_generation_keeps_code
                                Sample.env_default Sample.transactions
                                Sample.fraud_by_month
                                (FetchResponse false Throw)
                                Sample.builder_with_code) H))).
Defined.

(* ===================================================================== *)
(** * Running the generation twice *)
(* ===================================================================== *)

Section Twice.

Import DashboardBuilder.

Lemma handleGenerateDashboard_columns (env : Env) (table prompt : jsstring)
    (outcome : fetch_outcome) (st : State) :
  columns (fst (handleGenerateDashboard env table prompt outcome st))
  = columns st.
Proof.
  rewrite handleGenerateDashboard_state.
  destruct (snd (generate_try outcome _)) eqn:Hthrew; [reflexivity|].
  destruct (generate_try_done _ _ Hthrew) as [data [dax [sql [_ [_ [_ [_ Hst]]]]]]].
  rewrite Hst. reflexivity.
Qed.

(** Running again with the same outcome changes nothing. *)
Lemma handleGenerateDashboard_again (env : Env) (table prompt : jsstring)
    (outcome : fetch_outcome) (st : State) :
  let st1 := fst (handleGenerateDashboard env table prompt outcome st) in
  fst (handleGenerateDashboard env table prompt outcome st1) = st1.
Proof.
  intros st1. unfold st1. rewrite !handleGenerateDashboard_state.
  destruct outcome as [|[|] [data|]]; try reflexivity.
  destruct data; reflexivity.
Qed.

(** C2, as stated, fails on the client: two runs for the same table,
    schema and prompt issue the generation call twice, also when the
    first run succeeded, and the second result is whatever the second
    response carries, here another DAX text than the first. *)
Lemma second_run_calls_generator_again :
  let '(st1, st2, trace) :=
    generate_twice Sample.env_default Sample.transactions Sample.fraud_by_month
      (FetchResponse true (Normal Sample.both_fields))
      (FetchResponse true (Normal Sample.other_answer))
      Sample.builder_with_schema in
  ~ (List.length (generation_calls trace) <= 1)%nat /\
  generatedDAX st1 = JStr Sample.dax_fraud /\
  generatedDAX st2 = JStr Sample.dax_other /\
  generatedDAX st2 <> generatedDAX st1.
Proof.
  simpl. repeat split.
  - intros H. apply Nat.nle_succ_diag_l in H. exact H.
  - intros H. discriminate H.
Qed.

(** C2, amended.  Nothing is cached on the client: each of two runs for
    the same table, schema and prompt issues the generation call, with the
    same request, so the call is issued exactly twice; and when the second
    call meets the same outcome as the first, the second run leaves the
    state, and so the generated DAX and SQL, exactly as the first run left
    it. *)
Theorem rerun_repeats_call_and_result
    (env : Env) (table prompt : jsstring) (first second : fetch_outcome)
    (st : State) :
  let req := generate_request env table prompt (columns st) in
  generation_calls (snd (generate_twice env table prompt first second st))
  = [Fetch req; Fetch req] /\
  (let '(st1, st2, _) := generate_twice env table prompt first first st in
   st2 = st1).
Proof.
  intros req. unfold generate_twice.
  pose proof (handleGenerateDashboard_calls env table prompt first st) as H1.
  pose proof (handleGenerateDashboard_columns env table prompt first st) as Hc.
  pose proof (handleGenerateDashboard_again env table prompt first st) as Ha.
  destruct (handleGenerateDashboard env table prompt first st) as [st1 t1].
  simpl in H1, Hc, Ha.
  split.
  - pose proof (handleGenerateDashboard_calls env table prompt second st1) as H2.
    destruct (handleGenerateDashboard env table prompt second st1) as [st2 t2].
    simpl in *. unfold generation_calls in *.
    rewrite filter_app, H1, H2, Hc. reflexivity.
  - destruct (handleGenerateDashboard env table prompt first st1) as [st2 t2].
    exact Ha.
Qed.

End Twice.

(* ===================================================================== *)
(** * Exporting *)
(* ===================================================================== *)

Section Exporting.

Import Dialog.

Variables (env : Env) (table : jsstring).

Lemma handleGenerateDashboard_downloads (prompt : jsstring)
    (outcome : fetch_outcome) (st : DashboardBuilder.State) :
  downloads (snd (DashboardBuilder.handleGenerateDashboard
                    env table prompt outcome st)) = [].
Proof.
  unfold DashboardBuilder.handleGenerateDashboard.
  destruct (DashboardBuilder.generate_try outcome _) as [st1 [|]]; reflexivity.
Qed.

Lemma fetchTableSchema_downloads (db : Db.Db) (st : DashboardBuilder.State) :
  downloads (snd (DashboardBuilder.fetchTableSchema table db st)) = [].
Proof.
  unfold DashboardBuilder.fetchTableSchema.
  destruct (Db.raw db _ _); reflexivity.
Qed.

Lemma export_click_hidden (ui : UI)
    (handler : PowerBIExport.Props -> list effect) :
  truthy_json (DashboardBuilder.generatedDAX (builder ui)) = false ->
  export_click table ui handler = (ui, []).
Proof.
  intros H. unfold export_click, DashboardBuilder.export_panel.
  rewrite H. reflexivity.
Qed.

(** C7, as stated, fails: the client never reads the status of a result.
    A response that declares itself rejected but carries a DAX text makes
    the export panel appear, and a click on Download DAX exports the
    rejected text. *)
Lemma rejected_result_is_exported :
  declares_accepted Sample.rejected_answer = false /\
  downloads
    (snd (run Sample.env_default Sample.transactions initial
            [ ChangePrompt Sample.fraud_by_month;
              Submit (FetchResponse true (Normal Sample.rejected_answer));
              ClickDownloadDAX ]))
  = [ (u "transactions_dashboard.dax",
       {| parts := [JStr Sample.dax_unknown_column];
          type := u "text/plain" |}) ].
Proof. split; reflexivity. Qed.

(** C7, amended.  A step of the dialog hands a file to the browser only
    when it is a click on one of the three export buttons and the
    generated DAX held by the builder is truthy (for a string: not empty),
    the guard under which the export panel is rendered.  What the response
    declares besides [dax] and [sql], a status included, has no influence:
    two [ok] responses that agree on these two fields leave the same
    state. *)
Theorem export_needs_click_and_dax (ui : UI) (ev : event) :
  (downloads (snd (step env table ui ev)) <> [] ->
   (ev = ClickDownloadPBIDS \/ ev = ClickDownloadDAX \/ ev = ClickDownloadSQL) /\
   truthy_json (DashboardBuilder.generatedDAX (builder ui)) = true) /\
  (forall prompt fields1 fields2,
     lookup (u "dax") fields1 = lookup (u "dax") fields2 ->
     lookup (u "sql") fields1 = lookup (u "sql") fields2 ->
     fst (DashboardBuilder.handleGenerateDashboard env table prompt
            (FetchResponse true (Normal (JObj fields1))) (builder ui))
     = fst (DashboardBuilder.handleGenerateDashboard env table prompt
              (FetchResponse true (Normal (JObj fields2))) (builder ui))).
Proof.
  split.
  - intros Hdl.
    destruct (truthy_json (DashboardBuilder.generatedDAX (builder ui))) eqn:Hdax.
    + split; [|reflexivity].
      destruct ev; simpl in Hdl; auto; exfalso; apply Hdl.
      * apply fetchTableSchema_downloads.
      * destruct (DashboardBuilder.loading (builder ui)); reflexivity.
      * destruct (DashboardBuilder.loading (builder ui)); reflexivity.
      * destruct (PromptToDAX.showExamples (promptBox ui)); reflexivity.
      * destruct (PromptToDAX.handleSubmit _ _); [|reflexivity].
        apply handleGenerateDashboard_downloads.
    + exfalso. apply Hdl.
      destruct ev; simpl;
        try (rewrite (export_click_hidden _ _ Hdax); reflexivity).
      * apply fetchTableSchema_downloads.
      * destruct (DashboardBuilder.loading (builder ui)); reflexivity.
      * destruct (DashboardBuilder.loading (builder ui)); reflexivity.
      * destruct (PromptToDAX.showExamples (promptBox ui)); reflexivity.
      * destruct (PromptToDAX.handleSubmit _ _); [|reflexivity].
        apply handleGenerateDashboard_downloads.
  - intros prompt fields1 fields2 Hd Hs.
    rewrite !handleGenerateDashboard_object, Hd, Hs. reflexivity.
Qed.

End Exporting.

Lemma export_needs_click_and_dax_witness :
  downloads
    (snd (Dialog.step Sample.env_default Sample.transactions
            {| Dialog.builder := Sample.builder_with_code;
               Dialog.promptBox := PromptToDAX.initial |}
            Dialog.ClickDownloadSQL)) <> [] /\
  truthy_json (DashboardBuilder.generatedDAX Sample.builder_with_code) = true.
Proof.
  assert (H : downloads
                (snd (Dialog.step Sample.env_default Sample.transactions
                        {| Dialog.builder := Sample.builder_with_code;
                           Dialog.promptBox := PromptToDAX.initial |}
                        Dialog.ClickDownloadSQL)) <> [])
    by (simpl; discriminate).
  split; [exact H|].
  exact (proj2 (proj1 (export_needs_click_and_dax
                         Sample.env_default Sample.transactions
                         {| Dialog.builder := Sample.builder_with_code;
                            Dialog.promptBox := PromptToDAX.initial |}
                         Dialog.ClickDownloadSQL) H)).
Defined.

Section ExportFiles.

Import PowerBIExport.

Variables (env : Env) (p : Props).

Let nl : jsstring := [10%N].

(** The text of the connection descriptor, line by line. *)
Lemma pbids_text :
  JSON.stringify_2 (pbidsContent env p)
  = u "{" ++ nl
    ++ u "  " ++ JSON.quote (u "version") ++ u ": " ++ JSON.quote (u "1.0")
    ++ u "," ++ nl
    ++ u "  " ++ JSON.quote (u "connections") ++ u ": [" ++ nl
    ++ u "    {" ++ nl
    ++ u "      " ++ JSON.quote (u "filePath") ++ u ": "
    ++ JSON.quote (getApiBaseUrl env ++ u "/api/dashboard/" ++ table p
                     ++ u "/data")
    ++ u "," ++ nl
    ++ u "      " ++ JSON.quote (u "name") ++ u ": " ++ JSON.quote (table p)
    ++ nl
    ++ u "    }" ++ nl
    ++ u "  ]" ++ nl
    ++ u "}".
Proof.
  unfold JSON.stringify_2, pbidsContent, nl.
  generalize (getApiBaseUrl env ++ u "/api/dashboard/" ++ table p ++ u "/data").
  intros url. cbn -[JSON.quote_units].
  unfold JSON.quote.
  repeat (rewrite <- app_assoc; cbn -[JSON.quote_units]).
  reflexivity.
Qed.

(** C10.  The three exports are functions of the table name, the API base
    URL and the two code values alone.  Each makes an object URL for one
    blob, clicks an anchor that downloads it, and revokes the URL.  The
    descriptor is the JSON text, indented by two spaces, of
    [{version: "1.0", connections: [{filePath: <API base URL>/api/dashboard/<table>/data, name: <table>}]}],
    typed [application/json] and named [<table>_dashboard.pbids]; the DAX
    and SQL files hold exactly [daxCode] and [sqlCode], typed
    [text/plain] and named [<table>_dashboard.dax] and [<table>_query.sql]. *)
Theorem export_files :
  let content :=
    JObj [ (u "version", JStr (u "1.0"));
           (u "connections",
            JArr [ JObj [ (u "filePath",
                           JStr (getApiBaseUrl env ++ u "/api/dashboard/"
                                   ++ table p ++ u "/data"));
                          (u "name", JStr (table p)) ] ]) ] in
  let descriptor :=
    {| parts :=
         [JStr (JSON.stringify_2 content)];
       type := u "application/json" |} in
  let dax := {| parts := [daxCode p]; type := u "text/plain" |} in
  let sql := {| parts := [sqlCode p]; type := u "text/plain" |} in
  generatePBIDS env p
  = [ CreateObjectURL descriptor;
      AnchorClick descriptor (table p ++ u "_dashboard.pbids");
      RevokeObjectURL descriptor ] /\
  downloadDAX p
  = [ CreateObjectURL dax;
      AnchorClick dax (table p ++ u "_dashboard.dax");
      RevokeObjectURL dax ] /\
  downloadSQL p
  = [ CreateObjectURL sql;
      AnchorClick sql (table p ++ u "_query.sql");
      RevokeObjectURL sql ] /\
  downloads (generatePBIDS env p)
  = [(table p ++ u "_dashboard.pbids", descriptor)] /\
  downloads (downloadDAX p) = [(table p ++ u "_dashboard.dax", dax)] /\
  downloads (downloadSQL p) = [(table p ++ u "_query.sql", sql)] /\
  JSON.stringify_2 content
  = u "{" ++ nl
    ++ u "  " ++ JSON.quote (u "version") ++ u ": " ++ JSON.quote (u "1.0")
    ++ u "," ++ nl
    ++ u "  " ++ JSON.quote (u "connections") ++ u ": [" ++ nl
    ++ u "    {" ++ nl
    ++ u "      " ++ JSON.quote (u "filePath") ++ u ": "
    ++ JSON.quote (getApiBaseUrl env ++ u "/api/dashboard/" ++ table p
                     ++ u "/data")
    ++ u "," ++ nl
    ++ u "      " ++ JSON.quote (u "name") ++ u ": " ++ JSON.quote (table p)
    ++ nl
    ++ u "    }" ++ nl
    ++ u "  ]" ++ nl
    ++ u "}".
Proof.
  intros content descriptor dax sql.
  repeat (split; [reflexivity|]).
  exact pbids_text.
Qed.

End ExportFiles.

(* ===================================================================== *)
(** * Fetching the schema *)
(* ===================================================================== *)

Section Schema.

Import Db.

Lemma str_eqb_eq (a b : jsstring) : str_eqb a b = true <-> a = b.
Proof.
  revert b. induction a as [|x a IH]; intros [|y b]; simpl;
    try (split; [discriminate | intros H; discriminate H]).
  - split; reflexivity.
  - rewrite andb_true_iff, N.eqb_eq, IH. split.
    + intros [-> ->]. reflexivity.
    + intros H. injection H as -> ->. split; reflexivity.
Qed.

Lemma insert_by_ordinal_perm (r : column_info) (l : list column_info) :
  Permutation (r :: l) (insert_by_ordinal r l).
Proof.
  induction l as [|x l IH]; simpl.
  - apply Permutation_refl.
  - destruct (Z.leb (ordinal_position r) (ordinal_position x)).
    + apply Permutation_refl.
    + apply perm_trans with (x :: r :: l).
      * apply perm_swap.
      * apply perm_skip. exact IH.
Qed.

Lemma order_by_perm (l : list column_info) :
  Permutation l (order_by_ordinal_position l).
Proof.
  induction l as [|r l IH]; simpl.
  - apply perm_nil.
  - apply perm_trans with (r :: order_by_ordinal_position l).
    + apply perm_skip. exact IH.
    + apply insert_by_ordinal_perm.
Qed.

Lemma insert_by_ordinal_sorted (r : column_info) (l : list column_info) :
  StronglySorted ordinal_le l -> StronglySorted ordinal_le (insert_by_ordinal r l).
Proof.
  induction 1 as [|x l Hs IH Hx]; simpl.
  - repeat constructor.
  - destruct (Z.leb (ordinal_position r) (ordinal_position x)) eqn:Hle.
    + apply Z.leb_le in Hle. constructor.
      * constructor; assumption.
      * constructor; [exact Hle|].
        eapply Forall_impl; [|exact Hx].
        intros y Hy. unfold ordinal_le in *. lia.
    + apply Z.leb_gt in Hle. constructor; [exact IH|].
      apply (Permutation_Forall (insert_by_ordinal_perm r l)).
      constructor; [unfold ordinal_le; lia | exact Hx].
Qed.

Lemma order_by_sorted (l : list column_info) :
  StronglySorted ordinal_le (order_by_ordinal_position l).
Proof.
  induction l as [|r l IH]; simpl.
  - constructor.
  - apply insert_by_ordinal_sorted. exact IH.
Qed.

(** What the statement returns: the three attributes of the rows of the
    given table name, each row once, by ascending ordinal position. *)
Lemma schema_query_rows (catalog : list column_info) (table : jsstring) :
  exists rows,
    schema_query catalog table = map select_triple rows /\
    Permutation rows (filter (fun r => str_eqb (table_name r) table) catalog) /\
    StronglySorted ordinal_le rows /\
    (forall r, In r rows <-> In r catalog /\ table_name r = table).
Proof.
  exists (order_by_ordinal_position (where_table_name table catalog)).
  split; [reflexivity|]. split; [|split].
  - apply Permutation_sym, order_by_perm.
  - apply order_by_sorted.
  - intros r. unfold where_table_name. rewrite <- str_eqb_eq.
    pose proof (filter_In (fun r => str_eqb (table_name r) table) r catalog)
      as Hf.
    simpl in Hf. rewrite <- Hf.
    split; apply Permutation_in;
      [apply Permutation_sym|]; apply order_by_perm.
Qed.

End Schema.

(** C4.  The code breaks the claim on a table whose name also exists in
    another schema.  The page lists [transactions] once, the base table
    of the schema [public], and [fetchTableSchema] sends its one SELECT
    for that name; but the statement filters on the table name alone, so
    it returns the column of [audit.transactions] as well: two triples
    named [id], where the table has the single triple
    [(id, integer, NO)]. *)
Theorem schema_fetch_mixes_schemas :
  AIAnalyticsDashboard.tables
    (AIAnalyticsDashboard.session
       SampleMore.code_unit_leb SampleSchemas.page_store [])
  = [Sample.transactions] /\
  let run := DashboardBuilder.fetchTableSchema
               Sample.transactions SampleMore.store_two_schemas
               DashboardBuilder.initial in
  filter is_db_call (snd run)
  = [DbRaw Db.SelectColumnsOfTable [Sample.transactions]] /\
  DashboardBuilder.columns (fst run)
  = [SampleSchemas.public_id; SampleSchemas.audit_id] /\
  public_table_schema
    (Db.information_schema_columns SampleMore.store_two_schemas)
    Sample.transactions
  = [SampleSchemas.public_id] /\
  DashboardBuilder.columns (fst run)
  <> public_table_schema
       (Db.information_schema_columns SampleMore.store_two_schemas)
       Sample.transactions.
Proof.
  split; [reflexivity|]. split; [reflexivity|]. split; [reflexivity|].
  split; [reflexivity|].
  intros H. discriminate H.
Qed.

(** X18.  For every table name, [fetchTableSchema] sends the store one
    statement and nothing else: the SELECT on [information_schema.columns]
    with the table name as its only parameter; it calls no other
    collaborator.  When the store answers, the columns kept by the builder
    are the [column_name], [data_type] and [is_nullable] of the catalog
    rows with that table name, in whatever schema, each row once, in
    ascending ordinal position.  When it does not, the columns stay and
    the error message is set. *)
Theorem schema_fetch_is_one_ordered_select
    (table : jsstring) (db : Db.Db) (st : DashboardBuilder.State) :
  let run := DashboardBuilder.fetchTableSchema table db st in
  filter is_db_call (snd run) = [DbRaw Db.SelectColumnsOfTable [table]] /\
  generation_calls (snd run) = [] /\
  downloads (snd run) = [] /\
  (Db.reachable db = true ->
     DashboardBuilder.error (fst run) = None /\
     exists rows,
       DashboardBuilder.columns (fst run)
       = map (fun r => {| Row.column_name := Db.column_name r;
                          Row.data_type := Db.data_type r;
                          Row.is_nullable := Db.is_nullable r |})
             rows /\
       Permutation rows
         (filter (fun r => str_eqb (Db.table_name r) table)
                 (Db.information_schema_columns db)) /\
       StronglySorted Db.ordinal_le rows /\
       (forall r, In r rows <->
                  In r (Db.information_schema_columns db) /\
                  Db.table_name r = table)) /\
  (Db.reachable db = false ->
     DashboardBuilder.columns (fst run) = DashboardBuilder.columns st /\
     DashboardBuilder.error (fst run)
     = Some (u "Failed to fetch table schema")).
Proof.
  intros run. unfold run, DashboardBuilder.fetchTableSchema, Db.raw.
  destruct (Db.reachable db); simpl.
  - split; [reflexivity|]. split; [reflexivity|]. split; [reflexivity|].
    split; [|discriminate].
    intros _. split; [reflexivity|].
    apply schema_query_rows.
  - split; [reflexivity|]. split; [reflexivity|]. split; [reflexivity|].
    split; [discriminate|].
    intros _. split; reflexivity.
Qed.

Lemma schema_fetch_is_one_ordered_select_witness :
  Db.reachable Sample.store = true /\
  exists rows,
    DashboardBuilder.columns
      (fst (DashboardBuilder.fetchTableSchema
              Sample.transactions Sample.store DashboardBuilder.initial))
    = map (fun r => {| Row.column_name := Db.column_name r;
                       Row.data_type := Db.data_type r;
                       Row.is_nullable := Db.is_nullable r |})
          rows /\
    StronglySorted Db.ordinal_le rows /\
    (forall r, In r rows <->
               In r (Db.information_schema_columns Sample.store) /\
               Db.table_name r = Sample.transactions).
Proof.
  assert (H : Db.reachable Sample.store = true) by reflexivity.
  split; [exact H|].
  destruct (proj1 (proj2 (proj2 (proj2
              (schema_fetch_is_one_ordered_select
                 Sample.transactions Sample.store DashboardBuilder.initial)))) H)
    as [_ [rows [Hrows [_ [Hsorted Hin]]]]].
  exists rows. split; [exact Hrows|]. split; [exact Hsorted | exact Hin].
Defined.

(** The sample store answers with the three columns of [transactions] in
    declaration order. *)
Example schema_of_transactions :
  map Row.column_name
      (DashboardBuilder.columns
         (fst (DashboardBuilder.fetchTableSchema
                 Sample.transactions Sample.store DashboardBuilder.initial)))
  = [u "id"; u "amount"; u "label"].
Proof. reflexivity. Qed.

(* ===================================================================== *)
(** * The validator *)
(* ===================================================================== *)

Section Validation.

Import Validator.

Variable extract_sql : string -> option (list Identifier).
Variable extract_dax : string -> option (list Identifier).


Lemma known_In (s : SchemaSnapshot) (i : Identifier) :
  known s i = true <-> In (column i) (column_names s).
Proof.
  unfold known. rewrite existsb_exists. split.
  - intros [x [Hin Heq]]. apply String.eqb_eq in Heq. subst x. exact Hin.
  - intros Hin. exists (column i). split; [exact Hin | apply String.eqb_refl].
Qed.

Lemma appears_identifiers (raw : RawGenerationOutput) (i : Identifier) :
  appears extract_sql extract_dax i raw
  <-> In i (identifiers extract_sql extract_dax raw).
Proof.
  unfold appears, identifiers, appears_in_sql, appears_in_dax.
  rewrite in_app_iff. split.
  - intros [[ids [-> Hin]]|[ids [-> Hin]]]; [left | right]; exact Hin.
  - intros [Hin|Hin]; [left | right].
    + destruct (extract_sql (sql_text raw)) as [ids|]; [|destruct Hin].
      exists ids. split; [reflexivity | exact Hin].
    + destruct (extract_dax (dax_text raw)) as [ids|]; [|destruct Hin].
      exists ids. split; [reflexivity | exact Hin].
Qed.

Lemma validate_accepted (raw : RawGenerationOutput) (s : SchemaSnapshot) :
  status (validate extract_sql extract_dax raw s) = Accepted ->
  validate extract_sql extract_dax raw s = accept raw /\
  find (fun i => negb (known s i)) (identifiers extract_sql extract_dax raw)
  = None.
Proof.
  unfold validate.
  destruct (find _ _) as [i|]; simpl; [discriminate|].
  destruct (negb (tokenizes _ _ raw)); simpl; [discriminate|].
  destruct (is_empty (sql_text raw) && is_empty (dax_text raw)); simpl;
    [discriminate|].
  intros _. split; reflexivity.
Qed.

(** C1.  A result that [validate] accepts carries the two generated texts,
    and every identifier appearing in its SQL or in its DAX names a column
    of the schema of the request that owns it.  A generation output in
    which an identifier appears whose column is not in that schema is
    rejected, with the reason [UnknownColumn: <name>] naming such an
    identifier's column. *)
Theorem validate_grounds_columns
    (req : TranslationRequest) (raw : RawGenerationOutput) :
  let r := validate_for extract_sql extract_dax req raw in
  let names := column_names (schema req) in
  (status r = Accepted ->
     sql r = sql_text raw /\ dax r = dax_text raw /\
     forall i,
       appears_in_sql extract_sql i (sql r)
       \/ appears_in_dax extract_dax i (dax r) ->
       In (column i) names) /\
  ((exists i,
       appears extract_sql extract_dax i raw /\ ~ In (column i) names) ->
     status r = Rejected /\
     exists i,
       appears extract_sql extract_dax i raw /\ ~ In (column i) names /\
       rejection_reason r
       = Some (String.append "UnknownColumn: " (column i))).
Proof.
  intros r names. unfold r, names, validate_for. split.
  - intros Hacc.
    destruct (validate_accepted _ _ Hacc) as [-> Hfind]. simpl.
    split; [reflexivity|]. split; [reflexivity|].
    intros i Hi. apply appears_identifiers in Hi.
    apply known_In. apply (find_none _ _ Hfind) in Hi.
    apply negb_false_iff. exact Hi.
  - intros [i [Hi Hunknown]].
    apply appears_identifiers in Hi.
    unfold validate.
    destruct (find _ _) as [j|] eqn:Hfind.
    + apply find_some in Hfind. destruct Hfind as [Hj Hjunknown].
      simpl. split; [reflexivity|].
      exists j. split; [apply appears_identifiers; exact Hj|].
      split; [|reflexivity].
      rewrite <- known_In. apply negb_true_iff in Hjunknown.
      rewrite Hjunknown. discriminate.
    + exfalso. apply Hunknown, known_In.
      apply (find_none _ _ Hfind) in Hi.
      apply negb_false_iff. exact Hi.
Qed.

End Validation.

Lemma validate_grounds_columns_witness :
  (Validator.status
     (Validator.validate_for Validator.bracket_refs Validator.bracket_refs
        Sample.scenario_request Sample.grounded_output)
   = Validator.Accepted /\
   In "fraud_flag"%string
      (Validator.column_names (Validator.schema Sample.scenario_request))) /\
  ((exists i,
       (Validator.appears_in_sql Validator.bracket_refs i
          (Validator.sql_text Sample.ungrounded_output)
        \/ Validator.appears_in_dax Validator.bracket_refs i
             (Validator.dax_text Sample.ungrounded_output)) /\
       ~ In (Validator.column i)
            (Validator.column_names (Validator.schema Sample.scenario_request))) /\
   Validator.status
     (Validator.validate_for Validator.bracket_refs Validator.bracket_refs
        Sample.scenario_request Sample.ungrounded_output)
   = Validator.Rejected).
Proof.
  split.
  - assert (H : Validator.status
                  (Validator.validate_for
                     Validator.bracket_refs Validator.bracket_refs
                     Sample.scenario_request Sample.grounded_output)
                = Validator.Accepted) by reflexivity.
    split; [exact H|].
    destruct (proj1 (validate_grounds_columns
                       Validator.bracket_refs Validator.bracket_refs
                       Sample.scenario_request Sample.grounded_output) H)
      as [_ [_ Hall]].
    apply (Hall {| Validator.qualifier := None;
                   Validator.column := "fraud_flag" |}).
    left. eexists. split; [reflexivity|]. right; left; reflexivity.
  - assert (H : exists i,
               (Validator.appears_in_sql Validator.bracket_refs i
                  (Validator.sql_text Sample.ungrounded_output)
                \/ Validator.appears_in_dax Validator.bracket_refs i
                     (Validator.dax_text Sample.ungrounded_output)) /\
               ~ In (Validator.column i)
                    (Validator.column_names
                       (Validator.schema Sample.scenario_request))).
    { exists Sample.nonexistent_col. split.
      - right. eexists. split; [reflexivity|]. left; reflexivity.
      - simpl. intros [H|[H|[H|[]]]]; discriminate H. }
    split; [exact H|].
    exact (proj1 (proj2 (validate_grounds_columns
                           Validator.bracket_refs Validator.bracket_refs
                           Sample.scenario_request Sample.ungrounded_output)
                        H)).
Defined.

(** The second scenario of the specification. *)
Example unknown_column_reason :
  Validator.rejection_reason
    (Validator.validate_for Validator.bracket_refs Validator.bracket_refs
       Sample.scenario_request Sample.ungrounded_output)
  = Some "UnknownColumn: nonexistent_col"%string.
Proof. reflexivity. Qed.

(* ===================================================================== *)
(** * The components on concrete inputs *)
(* ===================================================================== *)

Example trim_padded_prompt :
  trim (PromptToDAX.prompt (Dialog.promptBox Sample.ui_padded_prompt))
  = Sample.fraud_by_month.
Proof. reflexivity. Qed.

Example trim_keeps_inner_blanks :
  trim ([160; 9]%N ++ u "a  b" ++ [8232; 32]%N) = u "a  b".
Proof. reflexivity. Qed.

(** A result with SQL only is shown, but the export panel stays hidden. *)
Example sql_only_result :
  let st := fst (DashboardBuilder.handleGenerateDashboard
                   Sample.env_default Sample.transactions Sample.fraud_by_month
                   (FetchResponse true (Normal Sample.sql_only))
                   Sample.builder_with_schema) in
  DashboardBuilder.generatedSQL st = JStr Sample.sql_fraud /\
  DashboardBuilder.generatedDAX st = JStr [] /\
  DashboardBuilder.error st = None /\
  DashboardBuilder.export_panel Sample.transactions st = None.
Proof. repeat split. Qed.

(** A body that is the JSON value [null] makes the property read throw:
    the run ends in the error state and the code shown stays. *)
Example null_body_is_a_failure :
  fst (DashboardBuilder.handleGenerateDashboard
         Sample.env_default Sample.transactions Sample.fraud_by_month
         (FetchResponse true (Normal JNull)) Sample.builder_with_code)
  = DashboardBuilder.setError (Some DashboardBuilder.failure_message)
      Sample.builder_with_code.
Proof. reflexivity. Qed.

(** The compact body of the sample request starts with the table field. *)
Example request_body_text :
  firstn 10 (JSON.stringify
               (DashboardBuilder.request_body
                  Sample.transactions Sample.fraud_by_month
                  [Sample.fraud_flag_column]))
  = u "{" ++ JSON.quote (u "table") ++ u ":" ++ [34%N].
Proof. reflexivity. Qed.

(** The API base URL: the Vite variable wins, an empty one is skipped. *)
Example api_base_url :
  getApiBaseUrl {| VITE_AI_API_URL := Some [];
                   REACT_APP_AI_API_URL := Some (u "https://ai.example") |}
  = u "https://ai.example" /\
  getApiBaseUrl {| VITE_AI_API_URL := Some (u "https://vite.example");
                   REACT_APP_AI_API_URL := Some (u "https://ai.example") |}
  = u "https://vite.example" /\
  getApiBaseUrl Sample.env_default = u "http://localhost:8000".
Proof. repeat split. Qed.

(* ===================================================================== *)
(** * The prompt box: when a prompt is sent *)
(* ===================================================================== *)

Section PromptGuard.

Import PromptToDAX.

Lemma blank_or_text (s : jsstring) : Forall whitespace s \/ has_text s.
Proof.
  induction s as [|c s [IH|[d [Hin Hd]]]].
  - left. constructor.
  - destruct (is_ws c) eqn:Hc.
    + left. constructor; assumption.
    + right. exists c. split; [left; reflexivity | exact Hc].
  - right. exists d. split; [right; exact Hin | exact Hd].
Qed.

Lemma text_not_blank (s : jsstring) : has_text s -> ~ Forall whitespace s.
Proof.
  intros [c [Hin Hc]] Hall.
  rewrite Forall_forall in Hall. specialize (Hall c Hin).
  unfold whitespace in Hall. congruence.
Qed.

Lemma trim_nonempty_text (s : jsstring) :
  nonempty (trim s) = true <-> has_text s.
Proof.
  split.
  - intros Hn. destruct (blank_or_text s) as [Hb|Ht]; [|exact Ht].
    rewrite (trim_blank _ Hb) in Hn. discriminate Hn.
  - intros Ht. destruct (trim s) eqn:Hs; [|reflexivity].
    exfalso. apply (text_not_blank _ Ht). apply trim_empty_blank. exact Hs.
Qed.

Lemma handleSubmit_some_iff (loading : bool) (st : State) :
  handleSubmit loading st = Some (trim (prompt st))
  <-> loading = false /\ has_text (prompt st).
Proof.
  unfold handleSubmit. rewrite <- trim_nonempty_text.
  destruct (nonempty (trim (prompt st))), loading; simpl; split;
    try discriminate; try (intros [H1 H2]; discriminate);
    try (intros _; split; reflexivity); reflexivity.
Qed.

(** X1.  The submit handler and the submit button agree: the button is
    disabled exactly when [handleSubmit] would not call [onGenerate], and
    [onGenerate] is called, with the trimmed prompt, exactly when nothing
    is loading and the prompt holds a character that is not white space. *)
Theorem submit_button_matches_handler (loading : bool) (st : State) :
  (submit_disabled loading st = true <-> handleSubmit loading st = None) /\
  (handleSubmit loading st = Some (trim (prompt st))
   <-> loading = false /\ has_text (prompt st)) /\
  (handleSubmit loading st = None
   <-> loading = true \/ Forall whitespace (prompt st)).
Proof.
  unfold submit_disabled, handleSubmit.
  pose proof (trim_nonempty_text (prompt st)) as Ht.
  destruct (nonempty (trim (prompt st))) eqn:Hn; destruct loading; simpl.
  - split; [split; reflexivity|]. split.
    + split; [discriminate | intros [H _]; discriminate H].
    + split; [left; reflexivity | reflexivity].
  - split; [split; discriminate|]. split.
    + split; [intros _; split; [reflexivity | apply Ht; reflexivity]
             | reflexivity].
    + split; [discriminate|].
      intros [H|H]; [discriminate H|].
      exfalso. apply (text_not_blank (prompt st)); [apply Ht; reflexivity | exact H].
  - split; [split; reflexivity|]. split.
    + split; [discriminate | intros [H _]; discriminate H].
    + split; [left; reflexivity | reflexivity].
  - split; [split; reflexivity|]. split.
    + split; [discriminate|].
      intros [_ H]. apply Ht in H. discriminate H.
    + split; [|reflexivity]. intros _. right.
      destruct (blank_or_text (prompt st)) as [Hb|Hx]; [exact Hb|].
      apply Ht in Hx. discriminate Hx.
Qed.

Lemma trimStart_app_blank (l s : jsstring) :
  Forall whitespace l -> trimStart (l ++ s) = trimStart s.
Proof.
  induction 1 as [|c l Hc _ IH]; simpl; [reflexivity|].
  unfold whitespace in Hc. rewrite Hc. exact IH.
Qed.

Lemma trimStart_app_text (s r : jsstring) :
  has_text s -> trimStart (s ++ r) = trimStart s ++ r.
Proof.
  induction s as [|c s IH]; intros [d [Hin Hd]]; [destruct Hin|].
  simpl. destruct (is_ws c) eqn:Hc; [|reflexivity].
  apply IH. destruct Hin as [->|Hin]; [congruence|].
  exists d. split; assumption.
Qed.

Lemma trimEnd_app_blank (s r : jsstring) :
  Forall whitespace r -> trimEnd (s ++ r) = trimEnd s.
Proof.
  intros Hr. unfold trimEnd. rewrite rev_app_distr.
  rewrite trimStart_app_blank; [reflexivity | apply Forall_rev; exact Hr].
Qed.

Lemma trim_padding (l s r : jsstring) :
  Forall whitespace l -> Forall whitespace r -> trim (l ++ s ++ r) = trim s.
Proof.
  intros Hl Hr. unfold trim. rewrite (trimStart_app_blank _ _ Hl).
  destruct (blank_or_text s) as [Hb|Ht].
  - rewrite (trimStart_blank _ Hb).
    rewrite (trimStart_blank (s ++ r)); [reflexivity|].
    apply Forall_app. split; assumption.
  - rewrite (trimStart_app_text _ _ Ht). apply trimEnd_app_blank. exact Hr.
Qed.

(** X2.  White space around the prompt does not matter: typing the same
    text with any white space before and after it makes [handleSubmit]
    pass on the same prompt, or pass on nothing in both cases. *)
Theorem padding_does_not_change_submission
    (loading : bool) (l s r : jsstring) (examples : bool) :
  Forall whitespace l -> Forall whitespace r ->
  handleSubmit loading {| prompt := l ++ s ++ r; showExamples := examples |}
  = handleSubmit loading {| prompt := s; showExamples := examples |}.
Proof.
  intros Hl Hr. unfold handleSubmit. simpl.
  rewrite (trim_padding _ _ _ Hl Hr). reflexivity.
Qed.

End PromptGuard.

Lemma padding_does_not_change_submission_witness :
  Forall whitespace [9; 32]%N /\ Forall whitespace [10; 160]%N /\
  PromptToDAX.handleSubmit false
    {| PromptToDAX.prompt := [9; 32]%N ++ Sample.fraud_by_month ++ [10; 160]%N;
       PromptToDAX.showExamples := false |}
  = PromptToDAX.handleSubmit false
      {| PromptToDAX.prompt := Sample.fraud_by_month;
         PromptToDAX.showExamples := false |}.
Proof.
  assert (Hl : Forall whitespace [9; 32]%N) by (repeat constructor).
  assert (Hr : Forall whitespace [10; 160]%N) by (repeat constructor).
  split; [exact Hl|]. split; [exact Hr|].
  exact (padding_does_not_change_submission
           false [9; 32]%N Sample.fraud_by_month [10; 160]%N false Hl Hr).
Defined.

(* ===================================================================== *)
(** * The dialog: which steps reach the generator *)
(* ===================================================================== *)

Section DialogCalls.

Import Dialog.

Variables (env : Env) (table : jsstring).

Lemma fetchTableSchema_no_fetch (db : Db.Db) (st : DashboardBuilder.State) :
  generation_calls (snd (DashboardBuilder.fetchTableSchema table db st)) = [].
Proof.
  unfold DashboardBuilder.fetchTableSchema.
  destruct (Db.raw db _ _); reflexivity.
Qed.

Lemma export_click_no_fetch (ui : UI)
    (handler : PowerBIExport.Props -> list effect) :
  (forall p, generation_calls (handler p) = []) ->
  generation_calls (snd (export_click table ui handler)) = [].
Proof.
  intros H. unfold export_click.
  destruct (DashboardBuilder.export_panel table (builder ui)); simpl;
    [apply H | reflexivity].
Qed.

(** X3.  The dialog reaches the generator in one way only.  A step issues
    a generation call exactly when it is a submission made while nothing
    is loading, with a prompt holding a character that is not white
    space; it then issues one call, for the trimmed prompt and the columns
    the builder holds.  Every other step issues none. *)
Theorem generation_call_iff (ui : UI) (ev : event) :
  let calls := generation_calls (snd (step env table ui ev)) in
  let typed := PromptToDAX.prompt (promptBox ui) in
  (calls <> [] <->
   (exists outcome, ev = Submit outcome) /\
   DashboardBuilder.loading (builder ui) = false /\ has_text typed) /\
  (calls = [] \/
   calls = [Fetch (DashboardBuilder.generate_request
                     env table (trim typed)
                     (DashboardBuilder.columns (builder ui)))]).
Proof.
  intros calls typed. unfold calls.
  assert (Hquiet : forall e, (forall o, e <> Submit o) ->
             generation_calls (snd (step env table ui e)) = []).
  { intros e He. destruct e; simpl.
    - apply fetchTableSchema_no_fetch.
    - destruct (DashboardBuilder.loading (builder ui)); reflexivity.
    - destruct (DashboardBuilder.loading (builder ui)); reflexivity.
    - destruct (PromptToDAX.showExamples (promptBox ui)); reflexivity.
    - exfalso. apply (He outcome). reflexivity.
    - apply export_click_no_fetch. reflexivity.
    - apply export_click_no_fetch. reflexivity.
    - apply export_click_no_fetch. reflexivity. }
  destruct ev as [db|text| |example|outcome| | |];
    try (rewrite Hquiet by discriminate;
         split; [split; [intros H; exfalso; apply H; reflexivity
                        | intros [[o Ho] _]; discriminate Ho]
                | left; reflexivity]).
  simpl.
  pose proof (handleSubmit_some_iff
                (DashboardBuilder.loading (builder ui)) (promptBox ui))
    as Hsome.
  destruct (PromptToDAX.handleSubmit _ _) as [p|] eqn:Hs; simpl.
  - destruct (handleSubmit_calls _ _ _ Hs) as [Hp [_ Hl]]. subst p.
    rewrite handleGenerateDashboard_calls.
    split; [|right; reflexivity].
    split; [|discriminate].
    intros _. split; [exists outcome; reflexivity|].
    apply Hsome. reflexivity.
  - split; [|left; reflexivity].
    split; [intros H; exfalso; apply H; reflexivity|].
    intros [_ Hyes]. apply Hsome in Hyes. discriminate Hyes.
Qed.

Lemma examples_are_trimmed :
  Forall (fun ex => trim ex = ex /\ nonempty ex = true)
         PromptToDAX.examplePrompts.
Proof. repeat constructor. Qed.

(** X4.  Picking one of the eight example prompts and submitting sends
    that example as it is written: the pick puts it in the prompt box,
    hides the example list and performs no effect, and the submission,
    made while nothing is loading, issues one generation call whose
    prompt is the example itself. *)
Theorem example_prompt_is_sent_as_written
    (ui : UI) (example : jsstring) (outcome : fetch_outcome) :
  In example PromptToDAX.examplePrompts ->
  PromptToDAX.showExamples (promptBox ui) = true ->
  DashboardBuilder.loading (builder ui) = false ->
  let picked := step env table ui (PickExample example) in
  let sent := step env table (fst picked) (Submit outcome) in
  promptBox (fst picked)
  = {| PromptToDAX.prompt := example; PromptToDAX.showExamples := false |} /\
  builder (fst picked) = builder ui /\
  snd picked = [] /\
  generation_calls (snd sent)
  = [Fetch (DashboardBuilder.generate_request
              env table example (DashboardBuilder.columns (builder ui)))].
Proof.
  intros Hin Hshow Hload.
  pose proof examples_are_trimmed as Hex.
  rewrite Forall_forall in Hex. destruct (Hex example Hin) as [Htrim Hne].
  simpl. rewrite Hshow. simpl.
  split; [reflexivity|]. split; [reflexivity|]. split; [reflexivity|].
  unfold PromptToDAX.handleSubmit. simpl.
  rewrite Htrim, Hne, Hload. simpl.
  apply handleGenerateDashboard_calls.
Qed.

End DialogCalls.

Lemma example_prompt_is_sent_as_written_witness :
  In Sample.fraud_by_month PromptToDAX.examplePrompts /\
  generation_calls
    (snd (Dialog.step Sample.env_default Sample.transactions
            (fst (Dialog.step Sample.env_default Sample.transactions
                    SampleMore.ui_ready
                    (Dialog.PickExample Sample.fraud_by_month)))
            (Dialog.Submit FetchRejects)))
  = [Fetch (DashboardBuilder.generate_request
              Sample.env_default Sample.transactions Sample.fraud_by_month
              [Sample.fraud_flag_column])].
Proof.
  assert (Hin : In Sample.fraud_by_month PromptToDAX.examplePrompts)
    by (left; reflexivity).
  split; [exact Hin|].
  exact (proj2 (proj2 (proj2
           (example_prompt_is_sent_as_written
              Sample.env_default Sample.transactions SampleMore.ui_ready
              Sample.fraud_by_month FetchRejects Hin eq_refl eq_refl)))).
Defined.

(* ===================================================================== *)
(** * The generation call: every outcome *)
(* ===================================================================== *)

Section Outcomes.

Import DashboardBuilder.

Variables (env : Env) (table prompt : jsstring).

Lemma usable_dec (outcome : fetch_outcome) : usable outcome \/ ~ usable outcome.
Proof.
  destruct outcome as [|[|] [data|]];
    try (right; intros [d [H _]]; discriminate H).
  destruct data;
    try (left; eexists; split; [reflexivity | discriminate]).
  right. intros [d [H Hn]]. injection H as <-. apply Hn. reflexivity.
Qed.

Lemma usable_try (outcome : fetch_outcome) (st : State) :
  usable outcome <-> snd (generate_try outcome st) = false.
Proof.
  split.
  - intros [data [-> Hn]]. destruct data; simpl; try reflexivity.
    exfalso. apply Hn. reflexivity.
  - intros H. destruct (generate_try_done _ _ H) as [data [_ [_ [Ho [Hn _]]]]].
    exists data. split; assumption.
Qed.

(** X5.  A run of [handleGenerateDashboard] succeeds exactly when the
    response is [ok] and its body parses to a value other than [null];
    then no error is left, also not an earlier one, and nothing is logged.
    In every other case, a body that is not JSON or is [null] included,
    the run ends in the state it started from with only the error message
    set, and logs one error after the call.  Either way loading is over
    and the columns are untouched. *)
Theorem generation_succeeds_iff (outcome : fetch_outcome) (st : State) :
  let run := handleGenerateDashboard env table prompt outcome st in
  let call := Fetch (generate_request env table prompt (columns st)) in
  (usable outcome -> error (fst run) = None /\ snd run = [call]) /\
  (~ usable outcome ->
     fst run = setLoading false (setError (Some failure_message) st) /\
     snd run = [call; ConsoleError (u "Error generating dashboard:")]) /\
  (error (fst run) = None <-> usable outcome) /\
  loading (fst run) = false /\
  columns (fst run) = columns st.
Proof.
  intros run call. unfold run, call.
  pose proof (usable_try outcome (setError None (setLoading true st))) as Hu.
  pose proof (handleGenerateDashboard_state env table prompt outcome st) as Hst.
  simpl in Hst.
  assert (Htrace :
            snd (handleGenerateDashboard env table prompt outcome st)
            = if snd (generate_try outcome (setError None (setLoading true st)))
              then [Fetch (generate_request env table prompt (columns st));
                    ConsoleError (u "Error generating dashboard:")]
              else [Fetch (generate_request env table prompt (columns st))]).
  { unfold handleGenerateDashboard.
    destruct (generate_try outcome _) as [st1 [|]]; reflexivity. }
  rewrite Hst, Htrace.
  destruct (snd (generate_try outcome (setError None (setLoading true st))))
    eqn:Hthrew.
  - assert (Hno : ~ usable outcome)
      by (intros H; apply Hu in H; discriminate H).
    split; [intros H; exfalso; exact (Hno H)|].
    split; [intros _; split; reflexivity|].
    split; [split; [discriminate | intros H; exfalso; exact (Hno H)]|].
    split; reflexivity.
  - assert (Hyes : usable outcome) by (apply Hu; reflexivity).
    destruct (generate_try_done _ _ Hthrew)
      as [data [dax [sql [_ [_ [_ [_ Hdone]]]]]]].
    rewrite Hdone.
    split; [intros _; split; reflexivity|].
    split; [intros H; exfalso; exact (H Hyes)|].
    split; [split; [intros _; exact Hyes | reflexivity]|].
    split; reflexivity.
Qed.

End Outcomes.

Lemma generation_succeeds_iff_witness :
  ~ usable (FetchResponse true Throw) /\
  DashboardBuilder.generatedDAX
    (fst (DashboardBuilder.handleGenerateDashboard
            Sample.env_default Sample.transactions Sample.fraud_by_month
            (FetchResponse true Throw) Sample.builder_with_code))
  = JStr Sample.dax_fraud.
Proof.
  assert (H : ~ usable (FetchResponse true Throw))
    by (intros [d [Hd _]]; discriminate Hd).
  split; [exact H|].
  rewrite (proj1 (proj1 (proj2 (generation_succeeds_iff
                                  Sample.env_default Sample.transactions
                                  Sample.fraud_by_month
                                  (FetchResponse true Throw)
                                  Sample.builder_with_code)) H)).
  reflexivity.
Defined.

(* ===================================================================== *)
(** * The stored code and the export panel *)
(* ===================================================================== *)

Section StoredCode.

Import Dialog.

Variables (env : Env) (table : jsstring).

Lemma or_else_empty_or_truthy (v : jsval) : empty_or_truthy (or_else v (JStr [])).
Proof.
  destruct v as [|j]; simpl; [left; reflexivity|].
  destruct (truthy_json j) eqn:Hj; [right; exact Hj | left; reflexivity].
Qed.

Lemma handleGenerateDashboard_invariant (prompt : jsstring)
    (outcome : fetch_outcome) (st : DashboardBuilder.State) :
  code_invariant st ->
  code_invariant
    (fst (DashboardBuilder.handleGenerateDashboard env table prompt outcome st)).
Proof.
  intros Hinv. rewrite handleGenerateDashboard_state.
  destruct (snd (DashboardBuilder.generate_try outcome _)) eqn:Hthrew.
  - exact Hinv.
  - destruct (generate_try_done _ _ Hthrew)
      as [data [dax [sql [_ [_ [_ [_ Hdone]]]]]]].
    rewrite Hdone. split; apply or_else_empty_or_truthy.
Qed.

Lemma fetchTableSchema_code (db : Db.Db) (st : DashboardBuilder.State) :
  let st' := fst (DashboardBuilder.fetchTableSchema table db st) in
  DashboardBuilder.generatedDAX st' = DashboardBuilder.generatedDAX st /\
  DashboardBuilder.generatedSQL st' = DashboardBuilder.generatedSQL st.
Proof.
  unfold DashboardBuilder.fetchTableSchema.
  destruct (Db.raw db _ _); split; reflexivity.
Qed.

Lemma step_invariant (ui : UI) (ev : event) :
  code_invariant (builder ui) ->
  code_invariant (builder (fst (step env table ui ev))).
Proof.
  intros Hinv. destruct ev; simpl.
  - destruct (fetchTableSchema_code db (builder ui)) as [Hd Hs].
    unfold code_invariant. rewrite Hd, Hs. exact Hinv.
  - destruct (DashboardBuilder.loading (builder ui)); exact Hinv.
  - destruct (DashboardBuilder.loading (builder ui)); exact Hinv.
  - destruct (PromptToDAX.showExamples (promptBox ui)); exact Hinv.
  - destruct (PromptToDAX.handleSubmit _ _); [|exact Hinv].
    apply handleGenerateDashboard_invariant. exact Hinv.
  - unfold export_click.
    destruct (DashboardBuilder.export_panel table (builder ui)); exact Hinv.
  - unfold export_click.
    destruct (DashboardBuilder.export_panel table (builder ui)); exact Hinv.
  - unfold export_click.
    destruct (DashboardBuilder.export_panel table (builder ui)); exact Hinv.
Qed.

Lemma run_invariant (evs : list event) (ui : UI) :
  code_invariant (builder ui) ->
  code_invariant (builder (fst (run env table ui evs))).
Proof.
  revert ui. induction evs as [|ev evs IH]; intros ui Hinv; simpl.
  - exact Hinv.
  - pose proof (step_invariant ui ev Hinv) as H1.
    destruct (step env table ui ev) as [ui1 t1]. simpl in H1.
    specialize (IH ui1 H1).
    destruct (run env table ui1 evs) as [ui2 t2]. exact IH.
Qed.

Lemma panel_on_screen_iff (st : DashboardBuilder.State) :
  empty_or_truthy (DashboardBuilder.generatedDAX st) ->
  (panel_on_screen table st = None
   <-> DashboardBuilder.generatedDAX st = JStr [] \/ builder_renders st = false).
Proof.
  intros Hd. unfold panel_on_screen, DashboardBuilder.export_panel.
  destruct (builder_renders st).
  - destruct Hd as [Hd|Hd]; rewrite Hd.
    + simpl. split; [intros _; left; reflexivity | reflexivity].
    + split; [discriminate|].
      intros [He|He]; [rewrite He in Hd; discriminate Hd | discriminate He].
  - split; [intros _; right; reflexivity | reflexivity].
Qed.

(** X6.  A [dax] or [sql] field of an [ok] response that is present but
    falsy ([null], [false], [0] or the empty string) is stored as the
    empty string, like a missing one.  So in every state the dialog
    reaches from its initial state, each event meeting a builder that is
    on screen, the stored DAX and SQL are each the empty string or a
    truthy value, and the export panel is off the screen exactly when the
    stored DAX is the empty string or the builder cannot render what it
    stores (an object among the stored values makes the render throw). *)
Theorem stored_code_is_empty_or_truthy (evs : list event) :
  let st := builder (fst (run env table initial evs)) in
  (forall prompt fields v st0,
     lookup (u "dax") fields = JVal v -> truthy_json v = false ->
     DashboardBuilder.generatedDAX
       (fst (DashboardBuilder.handleGenerateDashboard env table prompt
               (FetchResponse true (Normal (JObj fields))) st0))
     = JStr []) /\
  (forall prompt fields v st0,
     lookup (u "sql") fields = JVal v -> truthy_json v = false ->
     DashboardBuilder.generatedSQL
       (fst (DashboardBuilder.handleGenerateDashboard env table prompt
               (FetchResponse true (Normal (JObj fields))) st0))
     = JStr []) /\
  (on_screen_throughout env table initial evs = true ->
   empty_or_truthy (DashboardBuilder.generatedDAX st) /\
   empty_or_truthy (DashboardBuilder.generatedSQL st) /\
   (panel_on_screen table st = None
    <-> DashboardBuilder.generatedDAX st = JStr []
        \/ builder_renders st = false)).
Proof.
  intros st. split; [|split].
  - intros prompt fields v st0 Hv Hfalsy.
    rewrite handleGenerateDashboard_object. simpl.
    rewrite Hv. simpl. rewrite Hfalsy. reflexivity.
  - intros prompt fields v st0 Hv Hfalsy.
    rewrite handleGenerateDashboard_object. simpl.
    rewrite Hv. simpl. rewrite Hfalsy. reflexivity.
  - intros _.
    assert (Hinv : code_invariant st).
    { apply run_invariant. split; left; reflexivity. }
    destruct Hinv as [Hd Hs].
    split; [exact Hd|]. split; [exact Hs|].
    apply panel_on_screen_iff. exact Hd.
Qed.

(** X7.  What is exported is what the server sent.  Take a builder that
    is on screen and a submission answered by an [ok] response whose
    [dax] field is truthy, and let the [dax] field and the value stored
    for [sql] be values the builder can render (strings, as the state is
    typed, among them; not objects).  Then the export panel is on screen
    with these two values, the DAX download holds exactly the [dax]
    field, and the SQL download holds the [sql] field, or the empty string
    when that field is missing or falsy: a result with DAX only still
    offers an SQL file, an empty one. *)
Theorem exported_code_is_received_code
    (ui : UI) (fields : list (jsstring * json)) (dax : json) :
  builder_renders (builder ui) = true ->
  DashboardBuilder.loading (builder ui) = false ->
  has_text (PromptToDAX.prompt (promptBox ui)) ->
  lookup (u "dax") fields = JVal dax ->
  truthy_json dax = true ->
  react_child dax = true ->
  react_child (or_else (lookup (u "sql") fields) (JStr [])) = true ->
  let answered :=
    fst (step env table ui
           (Submit (FetchResponse true (Normal (JObj fields))))) in
  panel_on_screen table (builder answered)
  = Some {| PowerBIExport.table := table;
            PowerBIExport.daxCode := dax;
            PowerBIExport.sqlCode := or_else (lookup (u "sql") fields) (JStr []);
            PowerBIExport.columns := DashboardBuilder.columns (builder ui) |} /\
  downloads (snd (step env table answered ClickDownloadDAX))
  = [(table ++ u "_dashboard.dax",
      {| parts := [dax]; type := u "text/plain" |})] /\
  downloads (snd (step env table answered ClickDownloadSQL))
  = [(table ++ u "_query.sql",
      {| parts := [or_else (lookup (u "sql") fields) (JStr [])];
         type := u "text/plain" |})].
Proof.
  intros _ Hload Htext Hdax Htruthy Hrd Hrs answered. unfold answered.
  pose proof (handleSubmit_some_iff
                (DashboardBuilder.loading (builder ui)) (promptBox ui))
    as Hsome.
  cbn [step]. rewrite (proj2 Hsome (conj Hload Htext)).
  unfold with_builder, export_click, panel_on_screen, builder_renders,
    DashboardBuilder.export_panel.
  cbn [fst snd builder promptBox].
  rewrite handleGenerateDashboard_object.
  cbn [DashboardBuilder.generatedDAX DashboardBuilder.generatedSQL
       DashboardBuilder.columns].
  rewrite Hrs, Hdax. cbn [or_else]. rewrite Htruthy. cbv iota.
  rewrite Htruthy, Hrd. cbn [andb].
  split; [reflexivity|]. split; reflexivity.
Qed.

End StoredCode.

Lemma stored_code_is_empty_or_truthy_witness :
  on_screen_throughout Sample.env_default Sample.transactions Dialog.initial
    [ Dialog.ChangePrompt Sample.fraud_by_month;
      Dialog.Submit (FetchResponse true (Normal SampleSchemas.object_dax)) ]
  = true /\
  panel_on_screen Sample.transactions
    (Dialog.builder
       (fst (Dialog.run Sample.env_default Sample.transactions Dialog.initial
               [ Dialog.ChangePrompt Sample.fraud_by_month;
                 Dialog.Submit
                   (FetchResponse true (Normal SampleSchemas.object_dax)) ])))
  = None.
Proof.
  assert (H : on_screen_throughout
                Sample.env_default Sample.transactions Dialog.initial
                [ Dialog.ChangePrompt Sample.fraud_by_month;
                  Dialog.Submit
                    (FetchResponse true (Normal SampleSchemas.object_dax)) ]
              = true) by reflexivity.
  split; [exact H|].
  apply (proj2 (proj2 (proj2 (proj2 (proj2
           (stored_code_is_empty_or_truthy
              Sample.env_default Sample.transactions
              [ Dialog.ChangePrompt Sample.fraud_by_month;
                Dialog.Submit
                  (FetchResponse true (Normal SampleSchemas.object_dax)) ]))
           H)))).
  right. reflexivity.
Defined.

Lemma exported_code_is_received_code_witness :
  has_text (PromptToDAX.prompt (Dialog.promptBox SampleMore.ui_ready)) /\
  react_child (JStr Sample.dax_fraud) = true /\
  downloads
    (snd (Dialog.step Sample.env_default Sample.transactions
            (fst (Dialog.step Sample.env_default Sample.transactions
                    SampleMore.ui_ready
                    (Dialog.Submit
                       (FetchResponse true (Normal SampleMore.dax_only)))))
            Dialog.ClickDownloadSQL))
  = [(Sample.transactions ++ u "_query.sql",
      {| parts := [JStr []]; type := u "text/plain" |})].
Proof.
  assert (Ht : has_text
                 (PromptToDAX.prompt (Dialog.promptBox SampleMore.ui_ready)))
    by (exists 83%N; split; [left; reflexivity | reflexivity]).
  split; [exact Ht|]. split; [reflexivity|].
  exact (proj2 (proj2 (exported_code_is_received_code
                  Sample.env_default Sample.transactions SampleMore.ui_ready
                  [(u "dax", JStr Sample.dax_fraud)] (JStr Sample.dax_fraud)
                  eq_refl eq_refl Ht eq_refl eq_refl eq_refl eq_refl))).
Defined.

(** An answer whose [dax] is an object is stored, truthy, and cannot be
    rendered: the export panel is not on screen. *)
Example object_dax_shows_no_panel :
  let st := fst (DashboardBuilder.handleGenerateDashboard
                   Sample.env_default Sample.transactions Sample.fraud_by_month
                   (FetchResponse true (Normal SampleSchemas.object_dax))
                   Sample.builder_with_schema) in
  truthy_json (DashboardBuilder.generatedDAX st) = true /\
  builder_renders st = false /\
  panel_on_screen Sample.transactions st = None.
Proof. repeat split. Qed.

(* ===================================================================== *)
(** * Downloads *)
(* ===================================================================== *)

Section Downloads.

Import Dialog.

Variables (env : Env) (table : jsstring).

Lemma download_urls (b : Blob) (name : jsstring) :
  let t := PowerBIExport.download b name in
  created_urls t = [b] /\ revoked_urls t = [b] /\ downloads t = [(name, b)] /\
  generation_calls t = [] /\ db_calls t = [].
Proof. repeat split. Qed.

Lemma quiet_trace (t : list effect) :
  t = [] \/
  (exists a, t = [Fetch a]) \/
  (exists a l, t = [Fetch a; ConsoleError l]) \/
  (exists q ps, t = [DbRaw q ps]) \/
  (exists q ps l, t = [DbRaw q ps; ConsoleError l]) ->
  created_urls t = [] /\ revoked_urls t = [] /\ downloads t = [].
Proof.
  intros [->|[[a ->]|[[a [l ->]]|[[q [ps ->]]|[q [ps [l ->]]]]]]];
    repeat split.
Qed.

Lemma step_trace_shape (ui : UI) (ev : event) :
  let r := step env table ui ev in
  (snd r = [] \/
   (exists a, snd r = [Fetch a]) \/
   (exists a l, snd r = [Fetch a; ConsoleError l]) \/
   (exists q ps, snd r = [DbRaw q ps]) \/
   (exists q ps l, snd r = [DbRaw q ps; ConsoleError l])) \/
  (fst r = ui /\ exists b name, snd r = PowerBIExport.download b name).
Proof.
  destruct ev; simpl.
  - left. unfold DashboardBuilder.fetchTableSchema.
    destruct (Db.raw db _ _); simpl.
    + right; right; right; left. eexists. eexists. reflexivity.
    + right; right; right; right. eexists. eexists. eexists. reflexivity.
  - left. destruct (DashboardBuilder.loading (builder ui)); auto.
  - left. destruct (DashboardBuilder.loading (builder ui)); auto.
  - left. destruct (PromptToDAX.showExamples (promptBox ui)); auto.
  - left. destruct (PromptToDAX.handleSubmit _ _); [|auto].
    unfold DashboardBuilder.handleGenerateDashboard.
    destruct (DashboardBuilder.generate_try outcome _) as [st1 [|]]; simpl.
    + right; right; left. eexists. eexists. reflexivity.
    + right; left. eexists. reflexivity.
  - unfold export_click.
    destruct (DashboardBuilder.export_panel table (builder ui)); simpl;
      [right; split; [reflexivity | eexists; eexists; reflexivity] | auto].
  - unfold export_click.
    destruct (DashboardBuilder.export_panel table (builder ui)); simpl;
      [right; split; [reflexivity | eexists; eexists; reflexivity] | auto].
  - unfold export_click.
    destruct (DashboardBuilder.export_panel table (builder ui)); simpl;
      [right; split; [reflexivity | eexists; eexists; reflexivity] | auto].
Qed.

(** X8.  In every step of the dialog each object URL that is created is
    revoked, one per downloaded file; and a step that hands a file to the
    browser does nothing else: it leaves the whole state as it was and
    calls neither the generator nor the store. *)
Theorem downloads_leave_no_trace (ui : UI) (ev : event) :
  let r := step env table ui ev in
  created_urls (snd r) = map snd (downloads (snd r)) /\
  revoked_urls (snd r) = created_urls (snd r) /\
  (downloads (snd r) <> [] ->
   fst r = ui /\ generation_calls (snd r) = [] /\ db_calls (snd r) = []).
Proof.
  intros r. unfold r.
  destruct (step_trace_shape ui ev) as [Hq|[Hui [b [name Ht]]]].
  - destruct (quiet_trace _ Hq) as [Hc [Hr Hd]].
    rewrite Hc, Hr, Hd. split; [reflexivity|]. split; [reflexivity|].
    intros H. exfalso. apply H. reflexivity.
  - rewrite Ht, Hui. repeat split.
Qed.


End Downloads.


(* ===================================================================== *)
(** * The schema query: edge cases and order *)
(* ===================================================================== *)

Section SchemaOrder.

Import Db.

Lemma filter_perm {A : Type} (f : A -> bool) (l l' : list A) :
  Permutation l l' -> Permutation (filter f l) (filter f l').
Proof.
  induction 1 as [|x l l' _ IH|x y l|l l' l'' _ IH1 _ IH2]; simpl.
  - apply perm_nil.
  - destruct (f x); [apply perm_skip|]; exact IH.
  - destruct (f x), (f y);
      try apply Permutation_refl. apply perm_swap.
  - eapply perm_trans; eassumption.
Qed.

(** Two lists sorted by ordinal position that hold the same rows are the
    same list, provided no two rows share a position. *)
Lemma sorted_rows_unique (l1 l2 : list column_info) :
  StronglySorted ordinal_le l1 -> StronglySorted ordinal_le l2 ->
  Permutation l1 l2 -> NoDup (map ordinal_position l1) -> l1 = l2.
Proof.
  intros H1. revert l2.
  induction H1 as [|a l1 Hs1 IH Ha]; intros l2 H2 Hp Hnd.
  - apply Permutation_nil in Hp. symmetry. exact Hp.
  - destruct H2 as [|b l2 Hs2 Hb].
    + apply Permutation_sym, Permutation_nil in Hp. discriminate Hp.
    + assert (Hab : a = b).
      { assert (Hin_b : In b (a :: l1))
          by (apply (Permutation_in _ (Permutation_sym Hp)); left; reflexivity).
        assert (Hin_a : In a (b :: l2))
          by (apply (Permutation_in _ Hp); left; reflexivity).
        destruct Hin_b as [Hba|Hbl]; [exact Hba|].
        destruct Hin_a as [Hba|Hal]; [symmetry; exact Hba|].
        exfalso.
        rewrite Forall_forall in Ha, Hb.
        pose proof (Ha b Hbl) as Hle1. pose proof (Hb a Hal) as Hle2.
        unfold ordinal_le in Hle1, Hle2.
        assert (Heq : ordinal_position a = ordinal_position b) by lia.
        inversion Hnd as [|x xs Hnotin _]. subst.
        apply Hnotin. rewrite Heq. apply in_map. exact Hbl. }
      subst b. f_equal. apply IH.
      * exact Hs2.
      * apply Permutation_cons_inv with (a := a). exact Hp.
      * inversion Hnd. assumption.
Qed.

Lemma fetchTableSchema_reachable
    (table : jsstring) (db : Db.Db) (st : DashboardBuilder.State) :
  reachable db = true ->
  let st' := fst (DashboardBuilder.fetchTableSchema table db st) in
  DashboardBuilder.columns st'
  = schema_query (information_schema_columns db) table /\
  DashboardBuilder.error st' = None.
Proof.
  intros Hreach. unfold DashboardBuilder.fetchTableSchema, raw.
  rewrite Hreach. split; reflexivity.
Qed.

(** X10.  When the store answers, the builder holds one column per catalog
    row with the given table name.  A table name the catalog does not know
    gives an empty column list and no error: an unknown table looks like a
    table without columns. *)
Theorem unknown_table_has_no_columns
    (table : jsstring) (db : Db.Db) (st : DashboardBuilder.State) :
  reachable db = true ->
  let st' := fst (DashboardBuilder.fetchTableSchema table db st) in
  List.length (DashboardBuilder.columns st')
  = List.length (filter (fun r => str_eqb (table_name r) table)
                        (information_schema_columns db)) /\
  (DashboardBuilder.columns st' = [] <->
   forall r, In r (information_schema_columns db) -> table_name r <> table) /\
  DashboardBuilder.error st' = None.
Proof.
  intros Hreach st'.
  destruct (fetchTableSchema_reachable table db st Hreach) as [Hq Herr].
  fold st' in Hq, Herr.
  destruct (schema_query_rows (information_schema_columns db) table)
    as [rows [Hrows [Hperm [_ Hin]]]].
  assert (Hcols : DashboardBuilder.columns st' = map select_triple rows)
    by (rewrite Hq; exact Hrows).
  assert (Hlen : List.length (DashboardBuilder.columns st')
                 = List.length (filter (fun r => str_eqb (table_name r) table)
                                       (information_schema_columns db))).
  { rewrite Hcols, length_map. apply Permutation_length. exact Hperm. }
  split; [exact Hlen|]. split; [|exact Herr].
  split.
  - intros Hnil r Hr Hname.
    assert (Hrow : In r rows) by (apply Hin; split; assumption).
    rewrite Hcols in Hnil. destruct rows; [destruct Hrow | discriminate Hnil].
  - intros Hnone. rewrite Hcols.
    destruct rows as [|r rows]; [reflexivity|].
    exfalso. destruct (proj1 (Hin r) (or_introl eq_refl)) as [Hr Hname].
    exact (Hnone r Hr Hname).
Qed.

(** X11.  The column order does not depend on how the catalog stores its
    rows: when no two rows with the given table name share an ordinal
    position, any rearrangement of the catalog gives the same columns in
    the same order. *)
Theorem column_order_is_determined
    (table : jsstring) (catalog catalog' : list column_info) :
  Permutation catalog catalog' ->
  NoDup (map ordinal_position (where_table_name table catalog)) ->
  schema_query catalog table = schema_query catalog' table.
Proof.
  intros Hperm Hnd. unfold schema_query. f_equal.
  apply sorted_rows_unique.
  - apply order_by_sorted.
  - apply order_by_sorted.
  - apply perm_trans with (where_table_name table catalog);
      [apply Permutation_sym, order_by_perm|].
    apply perm_trans with (where_table_name table catalog');
      [apply filter_perm; exact Hperm | apply order_by_perm].
  - apply (Permutation_NoDup
             (Permutation_map ordinal_position
                (order_by_perm (where_table_name table catalog)))).
    exact Hnd.
Qed.

End SchemaOrder.

Lemma unknown_table_has_no_columns_witness :
  Db.reachable Sample.store = true /\
  DashboardBuilder.columns
    (fst (DashboardBuilder.fetchTableSchema
            (u "customers") Sample.store Sample.builder_with_schema))
  = [].
Proof.
  assert (H : Db.reachable Sample.store = true) by reflexivity.
  split; [exact H|].
  apply (proj1 (proj2 (unknown_table_has_no_columns
                         (u "customers") Sample.store
                         Sample.builder_with_schema H))).
  intros r Hr Hname. simpl in Hr.
  destruct Hr as [<-|[<-|[<-|[<-|[<-|[]]]]]]; discriminate Hname.
Defined.

Lemma column_order_is_determined_witness :
  Permutation (Db.information_schema_columns Sample.store)
              (Db.information_schema_columns SampleMore.store_shuffled) /\
  Db.schema_query (Db.information_schema_columns Sample.store)
                  Sample.transactions
  = Db.schema_query (Db.information_schema_columns SampleMore.store_shuffled)
                    Sample.transactions.
Proof.
  assert (Hp : Permutation
                 (Db.information_schema_columns Sample.store)
                 (Db.information_schema_columns SampleMore.store_shuffled))
    by apply Permutation_rev.
  split; [exact Hp|].
  apply (column_order_is_determined Sample.transactions _ _ Hp).
  simpl. repeat constructor; simpl; intros H;
    repeat (destruct H as [H|H]; [discriminate H|]); exact H.
Defined.

(* ===================================================================== *)
(** * The text of the request body *)
(* ===================================================================== *)

Section BodyText.

Import JSON.

Lemma hex_digit_printable (d : N) : printable (hex_digit d).
Proof.
  unfold hex_digit, printable. destruct (N.ltb d 10); lia.
Qed.

Lemma quote_unit_printable (c : N) : Forall printable (quote_unit c).
Proof.
  unfold quote_unit.
  repeat match goal with
         | |- context [if N.eqb c ?k then _ else _] =>
             destruct (N.eqb c k);
             [repeat constructor; unfold printable; lia|]
         end.
  destruct (N.ltb c 32) eqn:Hlt; simpl.
  - unfold unicode_escape.
    repeat constructor; try apply hex_digit_printable; unfold printable; lia.
  - apply N.ltb_ge in Hlt.
    destruct (is_high_surrogate c || is_low_surrogate c).
    + unfold unicode_escape.
      repeat constructor; try apply hex_digit_printable; unfold printable; lia.
    + repeat constructor. exact Hlt.
Qed.

Lemma quote_units_printable_upto (n : nat) (s : jsstring) :
  (List.length s <= n)%nat -> Forall printable (quote_units s).
Proof.
  revert s. induction n as [|n IH]; intros s Hlen.
  - destruct s; [constructor | simpl in Hlen; lia].
  - destruct s as [|c [|d r]]; simpl.
    + constructor.
    + apply quote_unit_printable.
    + destruct (is_high_surrogate c && is_low_surrogate d) eqn:Hpair.
      * apply andb_true_iff in Hpair. destruct Hpair as [Hc Hd].
        unfold is_high_surrogate in Hc. unfold is_low_surrogate in Hd.
        apply andb_true_iff in Hc, Hd.
        destruct Hc as [Hc _], Hd as [Hd _].
        apply N.leb_le in Hc, Hd.
        constructor; [unfold printable; lia|].
        constructor; [unfold printable; lia|].
        apply IH. simpl in Hlen. lia.
      * apply Forall_app. split; [apply quote_unit_printable|].
        apply (IH (d :: r)). simpl in *. lia.
Qed.

Lemma quote_printable (s : jsstring) : Forall printable (quote s).
Proof.
  unfold quote. apply Forall_app. split.
  - repeat constructor. unfold printable. lia.
  - apply Forall_app. split.
    + apply (quote_units_printable_upto (List.length s)). apply Nat.le_refl.
    + repeat constructor. unfold printable. lia.
Qed.

Lemma join_printable (sep : jsstring) (parts : list jsstring) :
  Forall printable sep -> Forall (Forall printable) parts ->
  Forall printable (join sep parts).
Proof.
  intros Hsep. induction 1 as [|p parts Hp Hparts IH]; simpl.
  - constructor.
  - destruct parts as [|q parts]; [exact Hp|].
    apply Forall_app. split; [exact Hp|].
    apply Forall_app. split; [exact Hsep | exact IH].
Qed.

Lemma wrap_compact_printable (open close : N) (parts : list jsstring) :
  printable open -> printable close -> Forall (Forall printable) parts ->
  Forall printable (wrap open close [] [] parts).
Proof.
  intros Ho Hc Hparts. unfold wrap.
  destruct parts as [|p parts]; [repeat constructor; assumption|].
  apply Forall_app. split; [repeat constructor; exact Ho|].
  apply Forall_app. split; [|repeat constructor; exact Hc].
  apply join_printable; [|exact Hparts].
  repeat constructor. unfold printable. lia.
Qed.

Lemma member_printable (k : jsstring) (text : jsstring) :
  Forall printable text ->
  Forall printable (quote k ++ [58%N] ++ [] ++ text).
Proof.
  intros H. apply Forall_app. split; [apply quote_printable|].
  constructor; [unfold printable; lia | exact H].
Qed.

(** X12.  The body of the generation request is one line of text without
    control characters, whatever the table name, the prompt and the
    column names and types contain: line breaks, tabs and other control
    characters in them leave [JSON.stringify] escaped. *)
Theorem request_body_has_no_control_character
    (env : Env) (table prompt : jsstring) (cols : list Row.t) :
  Forall printable
         (body (DashboardBuilder.generate_request env table prompt cols)).
Proof.
  unfold DashboardBuilder.generate_request, DashboardBuilder.request_body,
    stringify. cbn [body serialize map app].
  apply wrap_compact_printable; try (unfold printable; lia).
  constructor; [apply member_printable, quote_printable|].
  constructor; [apply member_printable, quote_printable|].
  constructor; [|constructor].
  apply member_printable.
  apply wrap_compact_printable; try (unfold printable; lia).
  rewrite map_map. apply Forall_map, Forall_forall. intros col _.
  cbn [serialize map app].
  apply wrap_compact_printable; try (unfold printable; lia).
  constructor; [apply member_printable, quote_printable|].
  constructor; [apply member_printable, quote_printable|].
  constructor.
Qed.

End BodyText.

(** A prompt of two lines with a quoted word is sent on one line. *)
Example two_line_prompt_body :
  let typed := u "fraud" ++ [10; 34]%N ++ u "by month" ++ [34%N] in
  In 10%N typed /\
  ~ In 10%N (body (DashboardBuilder.generate_request
                     Sample.env_default Sample.transactions typed [])).
Proof.
  split; [simpl; tauto|].
  vm_compute. intros H.
  repeat (destruct H as [H|H]; [discriminate H|]). exact H.
Qed.

(* ===================================================================== *)
(** * The API base URL *)
(* ===================================================================== *)

(** X13.  [getApiBaseUrl] never yields the empty string.  A variable that
    is set to the empty string counts as unset: the Vite variable is used
    when it is set and not empty, otherwise the CRA variable when it is set
    and not empty, otherwise [http://localhost:8000]; so the URL of the
    generation call always starts with a base that is not empty. *)
Theorem api_base_url_is_never_empty (env : Env) :
  nonempty (getApiBaseUrl env) = true /\
  (forall v, VITE_AI_API_URL env = Some v -> nonempty v = true ->
             getApiBaseUrl env = v) /\
  (VITE_AI_API_URL env = None \/ VITE_AI_API_URL env = Some [] ->
   (forall r, REACT_APP_AI_API_URL env = Some r -> nonempty r = true ->
              getApiBaseUrl env = r) /\
   (REACT_APP_AI_API_URL env = None \/ REACT_APP_AI_API_URL env = Some [] ->
    getApiBaseUrl env = u "http://localhost:8000")) /\
  (forall table prompt cols,
     exists c rest,
       url (DashboardBuilder.generate_request env table prompt cols)
       = c :: rest ++ u "/api/generate-dashboard").
Proof.
  assert (Hne : nonempty (getApiBaseUrl env) = true).
  { unfold getApiBaseUrl, truthy_var.
    destruct (VITE_AI_API_URL env) as [v|];
      [destruct (nonempty v) eqn:Hv; [exact Hv|]|];
      (destruct (REACT_APP_AI_API_URL env) as [r|];
       [destruct (nonempty r) eqn:Hr; [exact Hr | reflexivity]
       | reflexivity]). }
  split; [exact Hne|]. split; [|split].
  - intros v Hv Hnv. unfold getApiBaseUrl, truthy_var.
    rewrite Hv, Hnv. reflexivity.
  - intros Hvite.
    assert (Hskip : truthy_var (VITE_AI_API_URL env) = None)
      by (destruct Hvite as [-> | ->]; reflexivity).
    split.
    + intros r Hr Hnr. unfold getApiBaseUrl. rewrite Hskip.
      unfold truthy_var. rewrite Hr, Hnr. reflexivity.
    + intros Hcra. unfold getApiBaseUrl. rewrite Hskip.
      destruct Hcra as [-> | ->]; reflexivity.
  - intros table prompt cols. simpl.
    destruct (getApiBaseUrl env) as [|c rest]; [discriminate Hne|].
    exists c, rest. reflexivity.
Qed.

Lemma api_base_url_is_never_empty_witness :
  VITE_AI_API_URL {| VITE_AI_API_URL := Some [];
                     REACT_APP_AI_API_URL := Some (u "https://ai.example") |}
  = Some [] /\
  getApiBaseUrl {| VITE_AI_API_URL := Some [];
                   REACT_APP_AI_API_URL := Some (u "https://ai.example") |}
  = u "https://ai.example".
Proof.
  split; [reflexivity|].
  exact (proj1 (proj1 (proj2 (proj2
           (api_base_url_is_never_empty
              {| VITE_AI_API_URL := Some [];
                 REACT_APP_AI_API_URL := Some (u "https://ai.example") |})))
           (or_intror eq_refl))
         (u "https://ai.example") eq_refl eq_refl).
Defined.

(* ===================================================================== *)
(** * The analytics page: listing tables and opening the builder *)
(* ===================================================================== *)

Section Page.

Import AIAnalyticsDashboard.

Variable name_leb : jsstring -> jsstring -> bool.

Lemma insert_by_name_perm (r : table_info) (l : list table_info) :
  Permutation (r :: l) (insert_by_name name_leb r l).
Proof.
  induction l as [|x l IH]; simpl.
  - apply Permutation_refl.
  - destruct (name_leb (table_name r) (table_name x)).
    + apply Permutation_refl.
    + apply perm_trans with (x :: r :: l);
        [apply perm_swap | apply perm_skip; exact IH].
Qed.

Lemma order_by_table_name_perm (l : list table_info) :
  Permutation l (order_by_table_name name_leb l).
Proof.
  induction l as [|r l IH]; simpl.
  - apply perm_nil.
  - apply perm_trans with (r :: order_by_table_name name_leb l);
      [apply perm_skip; exact IH | apply insert_by_name_perm].
Qed.

Lemma where_public_base_table_In (view : list table_info) (r : table_info) :
  In r (where_public_base_table view) <-> In r view /\ public_base_table r.
Proof.
  unfold where_public_base_table, public_base_table.
  rewrite filter_In, andb_true_iff, !str_eqb_eq. reflexivity.
Qed.

Lemma tables_query_names (view : list table_info) (t : jsstring) :
  In t (map row_table_name (tables_query name_leb view))
  <-> exists r, In r view /\ public_base_table r /\ table_name r = t.
Proof.
  unfold tables_query. rewrite map_map. simpl. rewrite in_map_iff.
  split.
  - intros [r [Hname Hin]].
    apply (Permutation_in _ (Permutation_sym (order_by_table_name_perm _))) in Hin.
    apply where_public_base_table_In in Hin. destruct Hin as [Hin Hpub].
    exists r. repeat split; assumption || apply Hpub.
  - intros [r [Hin [Hpub Hname]]]. exists r. split; [exact Hname|].
    apply (Permutation_in _ (order_by_table_name_perm _)).
    apply where_public_base_table_In. split; assumption.
Qed.

(** X14.  [fetchTables] lists exactly the base tables of the schema
    [public]: when the store answers, a name is listed if and only if the
    catalog has a row for it with that schema and that type, one entry per
    such row, whatever the collation orders them by, and no error is
    left.  When the store cannot be reached the list stays as it was and
    the error message is set.  The selection and the builder are not
    touched in either case. *)
Theorem fetchTables_lists_public_base_tables (db : Store) (st : State) :
  let run := fetchTables name_leb db st in
  (reachable db = true ->
     (forall t, In t (tables (fst run)) <->
                exists r, In r (information_schema_tables db) /\
                          public_base_table r /\ table_name r = t) /\
     List.length (tables (fst run))
     = List.length (where_public_base_table (information_schema_tables db)) /\
     error (fst run) = None /\
     snd run = [RawSelectTables]) /\
  (reachable db = false ->
     tables (fst run) = tables st /\
     error (fst run) = Some (u "Failed to fetch tables from database") /\
     snd run = [RawSelectTables; LogError (u "Error fetching tables:")]) /\
  selectedTable (fst run) = selectedTable st /\
  showBuilder (fst run) = showBuilder st /\
  loading (fst run) = false.
Proof.
  intros run. unfold run, fetchTables, raw.
  destruct (reachable db); simpl.
  - split; [|split; [discriminate | repeat split]].
    intros _. split; [apply tables_query_names|].
    split; [|split; reflexivity].
    unfold tables_query. rewrite !length_map.
    apply Permutation_length, Permutation_sym, order_by_table_name_perm.
  - split; [discriminate|]. repeat split.
Qed.

End Page.

Lemma fetchTables_lists_public_base_tables_witness :
  AIAnalyticsDashboard.reachable SampleMore.tables_store = true /\
  AIAnalyticsDashboard.tables
    (fst (AIAnalyticsDashboard.fetchTables
            SampleMore.code_unit_leb SampleMore.tables_store
            AIAnalyticsDashboard.initial))
  = [u "fraud_scores"; u "transactions"] /\
  AIAnalyticsDashboard.error
    (fst (AIAnalyticsDashboard.fetchTables
            SampleMore.code_unit_leb SampleMore.tables_store
            AIAnalyticsDashboard.initial))
  = None.
Proof.
  assert (H : AIAnalyticsDashboard.reachable SampleMore.tables_store = true)
    by reflexivity.
  split; [exact H|]. split; [reflexivity|].
  exact (proj1 (proj2 (proj2
           (proj1 (fetchTables_lists_public_base_tables
                     SampleMore.code_unit_leb SampleMore.tables_store
                     AIAnalyticsDashboard.initial) H)))).
Defined.

Section PageSession.

Import AIAnalyticsDashboard.

Variable name_leb : jsstring -> jsstring -> bool.

Lemma is_option_listed (value : jsstring) (st : State) :
  is_option value st = true -> value = [] \/ In value (tables st).
Proof.
  unfold is_option. rewrite orb_true_iff. intros [H|H].
  - left. destruct value; [reflexivity | discriminate H].
  - right. apply existsb_exists in H. destruct H as [x [Hin Heq]].
    apply str_eqb_eq in Heq. subst x. exact Hin.
Qed.

Lemma step_page_invariant (listed : list jsstring) (st : State) (ev : event) :
  page_invariant listed st -> page_invariant listed (step st ev).
Proof.
  intros [Ht Hs]. destruct ev; simpl.
  - destruct (negb (loading st) && is_option value st) eqn:Hopt;
      [|split; assumption].
    apply andb_true_iff in Hopt. destruct Hopt as [_ Hopt].
    apply is_option_listed in Hopt. rewrite Ht in Hopt.
    split; [exact Ht | exact Hopt].
  - destruct (create_disabled st); split; assumption.
  - destruct (builder_table st); split; assumption.
Qed.

Lemma run_page_invariant (listed : list jsstring) (evs : list event)
    (st : State) :
  page_invariant listed st -> page_invariant listed (fold_left step evs st).
Proof.
  revert st. induction evs as [|ev evs IH]; intros st Hinv; simpl.
  - exact Hinv.
  - apply IH, step_page_invariant, Hinv.
Qed.

Lemma fetchTables_reachable_or_empty (db : Store) :
  (reachable db = true /\
   forall t, In t (tables (fst (fetchTables name_leb db initial))) ->
             exists r, In r (information_schema_tables db) /\
                       public_base_table r /\ table_name r = t) \/
  tables (fst (fetchTables name_leb db initial)) = [].
Proof.
  unfold fetchTables, raw. destruct (reachable db); simpl.
  - left. split; [reflexivity|]. intros t. apply tables_query_names.
  - right. reflexivity.
Qed.

(** X15.  From mounting on, whatever the user does, the builder is only
    ever opened for a table the page has listed: when the builder is
    rendered, its table name is not empty, the store was reachable when
    the page mounted, and the catalog then had a base table of that name
    in the schema [public].  If the table list could not be fetched, the
    builder cannot be opened at all. *)
Theorem builder_opens_only_for_listed_table
    (db : Store) (evs : list event) (t : jsstring) :
  builder_table (session name_leb db evs) = Some t ->
  nonempty t = true /\
  In t (tables (session name_leb db evs)) /\
  reachable db = true /\
  exists r, In r (information_schema_tables db) /\
            public_base_table r /\ table_name r = t.
Proof.
  intros Hopen. unfold session in *.
  set (mounted := fst (fetchTables name_leb db initial)) in *.
  assert (Hinv : page_invariant (tables mounted) (fold_left step evs mounted)).
  { apply run_page_invariant. split; [reflexivity|].
    left. unfold mounted, fetchTables.
    destruct (raw name_leb db); reflexivity. }
  destruct Hinv as [Ht Hs].
  unfold builder_table in Hopen.
  destruct (showBuilder _ && nonempty (selectedTable _)) eqn:Hshown;
    [|discriminate Hopen].
  injection Hopen as Hsel.
  apply andb_true_iff in Hshown. destruct Hshown as [_ Hne].
  rewrite Hsel in Hne, Hs.
  destruct Hs as [Hs|Hs]; [rewrite Hs in Hne; discriminate Hne|].
  split; [exact Hne|]. split; [rewrite Ht; exact Hs|].
  destruct (fetchTables_reachable_or_empty db) as [[Hr Hnames]|Hempty].
  - split; [exact Hr|]. apply Hnames. exact Hs.
  - fold mounted in Hempty. rewrite Hempty in Hs. destruct Hs.
Qed.

End PageSession.

Lemma builder_opens_only_for_listed_table_witness :
  AIAnalyticsDashboard.builder_table
    (AIAnalyticsDashboard.session
       SampleMore.code_unit_leb SampleMore.tables_store
       [ AIAnalyticsDashboard.ClickCreate;
         AIAnalyticsDashboard.SelectTable (u "transactions_log");
         AIAnalyticsDashboard.SelectTable Sample.transactions;
         AIAnalyticsDashboard.ClickCreate ])
  = Some Sample.transactions /\
  In Sample.transactions
     (AIAnalyticsDashboard.tables
        (AIAnalyticsDashboard.session
           SampleMore.code_unit_leb SampleMore.tables_store
           [ AIAnalyticsDashboard.ClickCreate;
             AIAnalyticsDashboard.SelectTable (u "transactions_log");
             AIAnalyticsDashboard.SelectTable Sample.transactions;
             AIAnalyticsDashboard.ClickCreate ])).
Proof.
  assert (H : AIAnalyticsDashboard.builder_table
                (AIAnalyticsDashboard.session
                   SampleMore.code_unit_leb SampleMore.tables_store
                   [ AIAnalyticsDashboard.ClickCreate;
                     AIAnalyticsDashboard.SelectTable (u "transactions_log");
                     AIAnalyticsDashboard.SelectTable Sample.transactions;
                     AIAnalyticsDashboard.ClickCreate ])
              = Some Sample.transactions) by reflexivity.
  split; [exact H|].
  exact (proj1 (proj2 (builder_opens_only_for_listed_table
                         SampleMore.code_unit_leb SampleMore.tables_store
                         _ Sample.transactions H))).
Defined.

(** With the store down the page lists nothing and the button stays
    disabled. *)
Example page_without_store :
  let st := AIAnalyticsDashboard.session
              SampleMore.code_unit_leb SampleMore.tables_store_down
              [ AIAnalyticsDashboard.SelectTable Sample.transactions;
                AIAnalyticsDashboard.ClickCreate ] in
  AIAnalyticsDashboard.tables st = [] /\
  AIAnalyticsDashboard.create_disabled st = true /\
  AIAnalyticsDashboard.builder_table st = None /\
  AIAnalyticsDashboard.error st
  = Some (u "Failed to fetch tables from database").
Proof. repeat split. Qed.

(* ===================================================================== *)
(** * Column names and calls over a whole run *)
(* ===================================================================== *)

Section Names.

Import Db.

(** X16.  The columns the builder holds have pairwise distinct names
    exactly when the catalog rows with the given table name do.  The
    statement filters on the table name alone, not on the schema, so rows
    of a table of the same name in another schema are returned as well,
    and a column name can then occur twice. *)
Theorem column_names_distinct_iff
    (table : jsstring) (db : Db.Db) (st : DashboardBuilder.State) :
  reachable db = true ->
  let cols := DashboardBuilder.columns
                (fst (DashboardBuilder.fetchTableSchema table db st)) in
  (NoDup (map Row.column_name cols)
   <-> NoDup (map column_name
                  (where_table_name table (information_schema_columns db)))) /\
  (forall r, In r (information_schema_columns db) -> table_name r = table ->
             In (select_triple r) cols).
Proof.
  intros Hreach cols.
  destruct (fetchTableSchema_reachable table db st Hreach) as [Hq _].
  fold cols in Hq. rewrite Hq. unfold schema_query.
  set (kept := where_table_name table (information_schema_columns db)).
  assert (Hnames : Permutation
                     (map column_name kept)
                     (map Row.column_name
                          (map select_triple (order_by_ordinal_position kept)))).
  { rewrite map_map. simpl. apply Permutation_map, order_by_perm. }
  split.
  - split; apply Permutation_NoDup;
      [apply Permutation_sym|]; exact Hnames.
  - intros r Hr Hname. apply in_map.
    apply (Permutation_in _ (order_by_perm kept)).
    unfold kept, where_table_name. apply filter_In.
    split; [exact Hr | apply str_eqb_eq; exact Hname].
Qed.

End Names.

Lemma column_names_distinct_iff_witness :
  Db.reachable SampleMore.store_two_schemas = true /\
  In (Db.select_triple SampleMore.audit_id)
     (DashboardBuilder.columns
        (fst (DashboardBuilder.fetchTableSchema
                Sample.transactions SampleMore.store_two_schemas
                DashboardBuilder.initial))) /\
  map Row.column_name
      (DashboardBuilder.columns
         (fst (DashboardBuilder.fetchTableSchema
                 Sample.transactions SampleMore.store_two_schemas
                 DashboardBuilder.initial)))
  = [u "id"; u "id"].
Proof.
  assert (H : Db.reachable SampleMore.store_two_schemas = true) by reflexivity.
  split; [exact H|]. split; [|reflexivity].
  apply (proj2 (column_names_distinct_iff
                  Sample.transactions SampleMore.store_two_schemas
                  DashboardBuilder.initial H)).
  - right; left; reflexivity.
  - reflexivity.
Defined.

Section Counting.

Import Dialog.

Variables (env : Env) (table : jsstring).

Lemma step_db_calls (ui : UI) (ev : event) :
  List.length (db_calls (snd (step env table ui ev)))
  = if is_table_change ev then 1%nat else 0%nat.
Proof.
  destruct ev; simpl.
  - unfold DashboardBuilder.fetchTableSchema.
    destruct (Db.raw db _ _); reflexivity.
  - destruct (DashboardBuilder.loading (builder ui)); reflexivity.
  - destruct (DashboardBuilder.loading (builder ui)); reflexivity.
  - destruct (PromptToDAX.showExamples (promptBox ui)); reflexivity.
  - destruct (PromptToDAX.handleSubmit _ _); [|reflexivity].
    unfold DashboardBuilder.handleGenerateDashboard.
    destruct (DashboardBuilder.generate_try outcome _) as [st1 [|]];
      reflexivity.
  - unfold export_click.
    destruct (DashboardBuilder.export_panel table (builder ui)); reflexivity.
  - unfold export_click.
    destruct (DashboardBuilder.export_panel table (builder ui)); reflexivity.
  - unfold export_click.
    destruct (DashboardBuilder.export_panel table (builder ui)); reflexivity.
Qed.

Lemma step_generation_calls (ui : UI) (ev : event) :
  (List.length (generation_calls (snd (step env table ui ev)))
   <= if is_submit ev then 1 else 0)%nat.
Proof.
  destruct ev; simpl.
  - rewrite fetchTableSchema_no_fetch. apply Nat.le_refl.
  - destruct (DashboardBuilder.loading (builder ui)); apply Nat.le_refl.
  - destruct (DashboardBuilder.loading (builder ui)); apply Nat.le_refl.
  - destruct (PromptToDAX.showExamples (promptBox ui)); apply Nat.le_refl.
  - destruct (PromptToDAX.handleSubmit _ _); simpl; [|apply Nat.le_0_l].
    rewrite handleGenerateDashboard_calls. apply Nat.le_refl.
  - rewrite export_click_no_fetch by reflexivity. apply Nat.le_refl.
  - rewrite export_click_no_fetch by reflexivity. apply Nat.le_refl.
  - rewrite export_click_no_fetch by reflexivity. apply Nat.le_refl.
Qed.

Lemma step_downloads (ui : UI) (ev : event) :
  (List.length (downloads (snd (step env table ui ev)))
   <= if is_export_click ev then 1 else 0)%nat.
Proof.
  destruct ev; simpl.
  - rewrite fetchTableSchema_downloads. apply Nat.le_refl.
  - destruct (DashboardBuilder.loading (builder ui)); apply Nat.le_refl.
  - destruct (DashboardBuilder.loading (builder ui)); apply Nat.le_refl.
  - destruct (PromptToDAX.showExamples (promptBox ui)); apply Nat.le_refl.
  - destruct (PromptToDAX.handleSubmit _ _); simpl; [|apply Nat.le_refl].
    rewrite handleGenerateDashboard_downloads. apply Nat.le_refl.
  - unfold export_click.
    destruct (DashboardBuilder.export_panel table (builder ui)); simpl; lia.
  - unfold export_click.
    destruct (DashboardBuilder.export_panel table (builder ui)); simpl; lia.
  - unfold export_click.
    destruct (DashboardBuilder.export_panel table (builder ui)); simpl; lia.
Qed.

Lemma downloads_app (t1 t2 : list effect) :
  downloads (t1 ++ t2) = downloads t1 ++ downloads t2.
Proof.
  induction t1 as [|e t1 IH]; simpl; [reflexivity|].
  destruct e; simpl; rewrite IH; reflexivity.
Qed.

(** X17.  Over any sequence of events the dialog acts only when asked:
    it queries the store exactly once per change of table, issues at most
    one generation call per submission, and hands over at most one file
    per click on an export button. *)
Theorem calls_follow_events (evs : list event) (ui : UI) :
  let t := snd (run env table ui evs) in
  List.length (db_calls t) = List.length (filter is_table_change evs) /\
  (List.length (generation_calls t) <= List.length (filter is_submit evs))%nat /\
  (List.length (downloads t) <= List.length (filter is_export_click evs))%nat.
Proof.
  revert ui. induction evs as [|ev evs IH]; intros ui; simpl.
  - repeat split; apply Nat.le_refl.
  - pose proof (step_db_calls ui ev) as Hdb.
    pose proof (step_generation_calls ui ev) as Hgen.
    pose proof (step_downloads ui ev) as Hdl.
    destruct (step env table ui ev) as [ui1 t1]. simpl in Hdb, Hgen, Hdl.
    specialize (IH ui1). simpl in IH.
    destruct (run env table ui1 evs) as [ui2 t2]. simpl in *.
    destruct IH as [IHdb [IHgen IHdl]].
    unfold db_calls, generation_calls in *.
    rewrite !filter_app, downloads_app, !length_app.
    destruct (is_table_change ev), (is_submit ev), (is_export_click ev);
      simpl; lia.
Qed.

End Counting.
